(** * LEANN bridge: ingestion, query planning and exact-match fallback

    A shallow embedding of [src/leann_poc/leann_bridge.py].  The class
    [LEANNBridge] is rendered method by method; the Python standard library
    ([pathlib], [json], [re]) and the LEANN package ([LeannBuilder],
    [LeannSearcher]) are collaborators: [pathlib]'s pure path algebra is
    written out, the remaining ones are fields of two interface records over
    which every statement is universally quantified. *)

From Stdlib Require Import String Ascii List ZArith Lia Bool PrimFloat.
Import ListNotations.
Local Open Scope string_scope.
Local Open Scope list_scope.

(** ** Python strings

    A [string] is read as a sequence of code points below 256. *)

Module Str.

(** [needle in hay] on [str]. *)
Fixpoint contains (needle hay : string) : bool :=
  match hay with
  | EmptyString => String.prefix needle hay
  | String _ rest => String.prefix needle hay || contains needle rest
  end.

(** [s.split(sep)] for a one-character separator. *)
Fixpoint split (sep : ascii) (s : string) : list string :=
  match s with
  | EmptyString => [EmptyString]
  | String c rest =>
      if Ascii.eqb c sep then EmptyString :: split sep rest
      else match split sep rest with
           | [] => [String c EmptyString]
           | w :: ws => String c w :: ws
           end
  end.

(** [s.rfind(c)]: the index of the last occurrence. *)
Fixpoint rfind (c : ascii) (s : string) : option nat :=
  match s with
  | EmptyString => None
  | String a rest =>
      match rfind c rest with
      | Some i => Some (S i)
      | None => if Ascii.eqb a c then Some 0%nat else None
      end
  end.

(** [str.isspace] on one code point below 256: TAB..CR, FS..US, SPACE,
    NEL and NBSP. *)
Definition isspace (c : ascii) : bool :=
  let n := nat_of_ascii c in
  ((9 <=? n) && (n <=? 13) || (28 <=? n) && (n <=? 32)
   || (n =? 133) || (n =? 160))%nat.

Fixpoint lstrip (s : string) : string :=
  match s with
  | EmptyString => EmptyString
  | String c rest => if isspace c then lstrip rest else s
  end.

(** Removal of trailing whitespace: a character is kept when it is not
    a space or when something is kept after it. *)
Fixpoint rstrip (s : string) : string :=
  match s with
  | EmptyString => EmptyString
  | String c rest =>
      match rstrip rest with
      | EmptyString => if isspace c then EmptyString else String c EmptyString
      | kept => String c kept
      end
  end.

(** [s.strip()]. *)
Definition strip (s : string) : string := rstrip (lstrip s).

(** Every character is whitespace (true of the empty string). *)
Fixpoint blank (s : string) : bool :=
  match s with
  | EmptyString => true
  | String c rest => isspace c && blank rest
  end.

(** Truth value of a [str]: non-empty. *)
Definition nonempty (s : string) : bool :=
  match s with EmptyString => false | _ => true end.

(** [x in xs] for a list of strings. *)
Definition mem (x : string) (xs : list string) : bool :=
  existsb (String.eqb x) xs.

End Str.

(** ** pathlib.PurePosixPath

    A path is the tuple that [Path.parts] returns: the anchor ["/"] (or
    ["//"]) first when the path is absolute, then the components. *)

Module PurePath.

Definition path := list string.

Definition is_anchor (part : string) : bool :=
  String.eqb part "/" || String.eqb part "//".

(** The root that [Path(s)] keeps: exactly two leading slashes are
    preserved, one or three and more collapse to one. *)
Definition anchor_of (s : string) : path :=
  match s with
  | String "/" (String "/" (String "/" _)) => ["/"]
  | String "/" (String "/" _) => ["//"]
  | String "/" _ => ["/"]
  | _ => []
  end.

Definition keep_component (c : string) : bool :=
  negb (String.eqb c "") && negb (String.eqb c ".").

(** [Path(s)]: empty and ["."] components are dropped. *)
Definition Path (s : string) : path :=
  anchor_of s ++ filter keep_component (Str.split "/" s).

Definition is_absolute (p : path) : bool :=
  match p with
  | a :: _ => is_anchor a
  | [] => false
  end.

(** [str(p)]. *)
Definition str (p : path) : string :=
  match p with
  | [] => "."
  | a :: rest => if is_anchor a then (a ++ String.concat "/" rest)%string
                 else String.concat "/" p
  end.

(** [p / q]: an absolute right operand replaces the left one. *)
Definition joinpath (p q : path) : path :=
  if is_absolute q then q else p ++ q.

(** [p.parent]: the anchor and the empty path are their own parents. *)
Definition parent (p : path) : path :=
  match p with
  | [] => []
  | [a] => if is_anchor a then [a] else []
  | _ => removelast p
  end.

(** [p.name]: the final component, empty for an anchor or the empty path. *)
Definition name (p : path) : string :=
  match p with
  | [] => ""
  | [a] => if is_anchor a then "" else a
  | _ => last p ""
  end.

(** [p.suffix]: the extension of [name], from its last dot on, when that
    dot is neither the first nor the last character. *)
Definition suffix (p : path) : string :=
  let n := name p in
  match Str.rfind "." n with
  | Some i =>
      if ((0 <? i) && (i <? String.length n - 1))%nat
      then String.substring i (String.length n - i) n
      else ""
  | None => ""
  end.

Fixpoint eqb (p q : path) : bool :=
  match p, q with
  | [], [] => true
  | a :: p', b :: q' => String.eqb a b && eqb p' q'
  | _, _ => false
  end.

(** [prefix ++ rest = p] with [rest] returned, as [relative_to] needs. *)
Fixpoint strip_prefix (prefix p : path) : option path :=
  match prefix, p with
  | [], _ => Some p
  | a :: prefix', b :: p' =>
      if String.eqb a b then strip_prefix prefix' p' else None
  | _ :: _, [] => None
  end.

End PurePath.

(** ** Python values, exceptions and the collaborators *)

Module Py.

Import PurePath.

(** What [json.load] can return. *)
#[warnings="-register-all"] Inductive json : Type :=
| JNull
| JBool (b : bool)
| JInt (n : Z)
| JFloat (x : float)
| JStr (s : string)
| JArr (xs : list json)
| JObj (kvs : list (string * json)).

(** [bool(v)]. *)
Definition truthy (v : json) : bool :=
  match v with
  | JNull => false
  | JBool b => b
  | JInt n => negb (n =? 0)%Z
  | JFloat x => negb (PrimFloat.eqb x 0%float)
  | JStr s => Str.nonempty s
  | JArr xs => match xs with [] => false | _ => true end
  | JObj kvs => match kvs with [] => false | _ => true end
  end.

(** [a or b]: the first operand when it is truthy, else the second. *)
Definition py_or (a b : json) : json := if truthy a then a else b.

(** Lookup in a [dict]. *)
Fixpoint lookup (k : string) (kvs : list (string * json)) : option json :=
  match kvs with
  | [] => None
  | (k', v) :: rest => if String.eqb k k' then Some v else lookup k rest
  end.

(** [d.get(k, default)]. *)
Definition dict_get (kvs : list (string * json)) (k : string) (default : json) : json :=
  match lookup k kvs with
  | Some v => v
  | None => default
  end.

(** [v == s] for a string literal [s]. *)
Definition eq_str (v : json) (s : string) : bool :=
  match v with
  | JStr t => String.eqb t s
  | _ => false
  end.

(** The built-in errors that the bridge's own statements can raise; the
    interpreter words them. *)
Inductive fault : Type :=
| NotAContainer (v : json)      (* [k in v], v is None, a bool or a number *)
| BadSubscript (v : json)       (* [v[k]] with a str key, v a list or a str *)
| NotIterable (v : json)        (* [for x in v], v is None, a bool or a number *)
| NoGetMethod (v : json)        (* [v.get(...)], v is not a dict *)
| BadPathOperand (v : json)     (* [path / v], v is not a str *)
| BadSearchSubject (v : json)   (* [pattern.search(v)], v is not a str *)
| CannotRead (p : path)         (* [open(p)] or [f.read()] fails *)
| NotRelative (p root : path).  (* [p.relative_to(root)] *)

(** An exception of class [Exception]: a built-in fault, or one raised by
    a library with its message. *)
Inductive exn : Type :=
| Fault (f : fault)
| Raised (msg : string).

(** Outcome of a statement sequence: a value, or a pending exception. *)
Inductive result (A : Type) : Type :=
| Ok (a : A)
| Raise (e : exn).
Arguments Ok {A} a.
Arguments Raise {A} e.

Definition bind {A B} (m : result A) (k : A -> result B) : result B :=
  match m with
  | Ok a => k a
  | Raise e => Raise e
  end.

(** [try: m  except Exception as e: handler e]. *)
Definition try_except {A} (m : result A) (handler : exn -> result A) : result A :=
  match m with
  | Ok a => Ok a
  | Raise e => handler e
  end.

(** The standard-library services the bridge calls. *)
Record Runtime : Type := {
  regex : Type;
  (** [re.compile(pattern, re.IGNORECASE)]; [inl msg] is [re.error]. *)
  re_compile : string -> bool -> string + regex;
  (** [pattern.search(text) is not None]. *)
  re_search : regex -> string -> bool;
  (** [json.loads(text)]; [inl msg] is the decoding error. *)
  json_loads : string -> string + json;
  (** [str(e)] for a built-in fault. *)
  fault_text : fault -> string;
}.

(** [str(e)]. *)
Definition str_exn (rt : Runtime) (e : exn) : string :=
  match e with
  | Fault f => fault_text rt f
  | Raised msg => msg
  end.

End Py.

Notation "x <- m ;; k" := (Py.bind m (fun x => k))
  (at level 61, m at next level, right associativity).

(** ** The file system as the process sees it

    One entry per path the operating system resolves, keyed by the parts of
    the path exactly as the program spells it (a relative key is resolved
    against the current working directory by the system, not by the
    program).  The model is read-only: neither [search] nor the walk of
    [index_codebase] writes to it. *)

Module FS.

Import PurePath Py.

(** The fields of [os.stat_result] that the bridge reads. *)
Record stat_result : Type := { st_size : Z; st_mtime : float }.

(** A regular file has decoded text when it can be opened and read. *)
Inductive node : Type :=
| Directory
| RegularFile (text : option string) (st : stat_result).

Definition filesystem := list (path * node).

Fixpoint lookup (fs : filesystem) (p : path) : option node :=
  match fs with
  | [] => None
  | (q, n) :: rest => if PurePath.eqb p q then Some n else lookup rest p
  end.

(** [p.exists()]. *)
Definition path_exists (fs : filesystem) (p : path) : bool :=
  match lookup fs p with Some _ => true | None => false end.

(** [p.is_file()]. *)
Definition is_file (fs : filesystem) (p : path) : bool :=
  match lookup fs p with Some (RegularFile _ _) => true | _ => false end.

(** [p.is_dir()]. *)
Definition is_dir (fs : filesystem) (p : path) : bool :=
  match lookup fs p with Some Directory => true | _ => false end.

(** [open(p, 'r', ...)] followed by reading the whole file. *)
Definition read_text (fs : filesystem) (p : path) : result string :=
  match lookup fs p with
  | Some (RegularFile (Some text) _) => Ok text
  | _ => Raise (Fault (CannotRead p))
  end.

(** [p.stat()] on an entry that exists. *)
Definition stat (fs : filesystem) (p : path) : result stat_result :=
  match lookup fs p with
  | Some (RegularFile _ st) => Ok st
  | _ => Raise (Fault (CannotRead p))
  end.

(** [p] lies strictly below [root]. *)
Definition below (root p : path) : bool :=
  match strip_prefix root p with
  | Some (_ :: _) => Bool.eqb (is_absolute p) (is_absolute root)
  | _ => false
  end.

(** [root.rglob('*')]: every entry below a directory, nothing for anything
    else. *)
Definition rglob (fs : filesystem) (root : path) : list path :=
  if is_dir fs root then filter (below root) (map fst fs) else [].

(** Text mode translates ["\r\n"] and ["\r"] to ["\n"]. *)
Fixpoint universal_newlines (s : string) : string :=
  match s with
  | EmptyString => EmptyString
  | String c rest =>
      if Ascii.eqb c "013"
      then match rest with
           | String "010" rest' => String "010" (universal_newlines rest')
           | _ => String "010" (universal_newlines rest)
           end
      else String c (universal_newlines rest)
  end.

(** Cut after every ["\n"], which stays with its line. *)
Fixpoint cut_lines (s : string) : list string :=
  match s with
  | EmptyString => []
  | String c rest =>
      if Ascii.eqb c "010" then String c EmptyString :: cut_lines rest
      else match cut_lines rest with
           | [] => [String c EmptyString]
           | l :: ls => String c l :: ls
           end
  end.

(** [for line in f]. *)
Definition readlines (text : string) : list string :=
  cut_lines (universal_newlines text).

End FS.

(** ** The LEANN package *)

Module Leann.

Import Py.

(** [leann.SearchResult]. *)
Record SearchResult : Type := {
  text : string;
  metadata : json;
  score : float;
}.

(** What the builder holds: the texts added so far with their metadata. *)
Definition passage : Type := (string * json)%type.

Record Library : Type := {
  (** [LeannSearcher(index)]: the index's [meta_data], or the message of
      the exception raised. *)
  LeannSearcher : string -> string + list (string * json);
  (** [searcher.search(query, top_k, metadata_filters, use_grep,
      recompute_embeddings)] on the index at the given path. *)
  searcher_search :
    string -> string -> Z -> option json -> bool -> json -> string + list SearchResult;
  (** [builder.add_text(text, metadata)] on a builder holding the given
      passages: [Some msg] when it raises. *)
  add_text : list passage -> string -> json -> option string;
  (** [builder.build_index(index)]: [Some msg] when it raises. *)
  build_index : list passage -> string -> option string;
}.

End Leann.

(** ** class LEANNBridge *)

Import PurePath Py FS Leann.

(** The object's only attribute, set by [__init__] to [Path(index_path)]. *)
Record LEANNBridge : Type := { index_path : path }.

(** [__init__] also creates the parent directory of the index; the file
    system below is the one found after that. *)
Definition __init__ (index_path : string) : LEANNBridge :=
  {| index_path := Path index_path |}.

(** One element of the list that [search] and [_manual_grep] return: a hit
    [{"content", "metadata", "score"}] or an in-band failure [{"error"}]. *)
Inductive entry : Type :=
| Hit (content : string) (metadata : json) (score : float)
| ErrorEntry (error : string).

(** Calls that leave the bridge, and the one call into its own fallback. *)
Inductive call : Type :=
| NewSearcher (index : string)
| SearcherSearch (query : string) (top_k : Z) (metadata_filters : option json)
    (use_grep : bool) (recompute_embeddings : json)
| ManualGrep (query : string) (top_k : Z).

(** A computation that may raise, together with the calls it made. *)
Definition traced (A : Type) : Type := (list call * result A)%type.

Definition tret {A} (a : A) : traced A := ([], Ok a).

Definition traise {A} (e : exn) : traced A := ([], Raise e).

Definition tbind {A B} (m : traced A) (k : A -> traced B) : traced B :=
  match m with
  | (t1, Ok a) => let (t2, r) := k a in (t1 ++ t2, r)
  | (t1, Raise e) => (t1, Raise e)
  end.

Definition ttry {A} (m : traced A) (handler : exn -> traced A) : traced A :=
  match m with
  | (t1, Ok a) => (t1, Ok a)
  | (t1, Raise e) => let (t2, r) := handler e in (t1 ++ t2, r)
  end.

(** A library call: logged, and its message turned into an exception. *)
Definition tcall {A} (c : call) (outcome : string + A) : traced A :=
  ([c], match outcome with inl msg => Raise (Raised msg) | inr a => Ok a end).

Notation "x <~ m ;; k" := (tbind m (fun x => k))
  (at level 61, m at next level, right associativity).

(** The results of the ingestion walk: the three local variables of
    [index_codebase] and the content of [builder]. *)
Record walk_state : Type := {
  indexed_files : Z;
  indexed_chunks : Z;
  errors : list string;
  builder : list passage;
}.

(** The dictionary [index_codebase] returns. *)
Inductive index_report : Type :=
| IndexFailure (error : string)
| IndexSuccess (indexed_files indexed_chunks : Z) (errors : list string)
    (index_path : string).

Definition default_extensions : list string :=
  [".swift"; ".py"; ".js"; ".ts"; ".md"; ".json"; ".csv"; ".yaml"; ".yml"; ".txt"].

Definition default_exclude_dirs : list string :=
  ["build"; ".build"; "node_modules"; "venv"; ".git"].

Definition missing_passages_phrase : string := "No .jsonl passages file found".

Definition recompute_failure_text : string :=
  "Search failed because the index is compact/pruned and the recompute server could not start. Please RE-INDEX your codebase in Settings for better performance and reliability. Error: ".

Section Bridge.

Context (rt : Runtime) (lib : Library) (fs : filesystem).

(** *** _manual_grep *)

(** [json.loads] / [json.load] as a raising computation. *)
Definition loads (text : string) : result json :=
  match json_loads rt text with
  | inl msg => Raise (Raised msg)
  | inr v => Ok v
  end.

(** [v.get(k, default)], an [AttributeError] unless [v] is a dict. *)
Definition py_get (v : json) (k : string) (default : json) : result json :=
  match v with
  | JObj kvs => Ok (dict_get kvs k default)
  | _ => Raise (Fault (NoGetMethod v))
  end.

(** [for src in v]: the elements of a list, the keys of a dict, the
    characters of a str. *)
Definition iterate (v : json) : result (list json) :=
  match v with
  | JArr xs => Ok xs
  | JObj kvs => Ok (map (fun kv => JStr (fst kv)) kvs)
  | JStr s => Ok (map (fun c => JStr (String c EmptyString)) (list_ascii_of_string s))
  | _ => Raise (Fault (NotIterable v))
  end.

(** Lines 248-251: the path of the first source whose type is ["jsonl"];
    [None] when the loop ends without a [break]. *)
Fixpoint first_jsonl (srcs : list json) : result json :=
  match srcs with
  | [] => Ok JNull
  | src :: rest =>
      ty <- py_get src "type" JNull ;;
      if eq_str ty "jsonl" then py_get src "path" JNull else first_jsonl rest
  end.

(** Lines 246-251: [passage_path]. *)
Definition find_passage_path (meta : json) : result json :=
  match meta with
  | JObj kvs =>
      match Py.lookup "passage_sources" kvs with
      | Some srcs => xs <- iterate srcs ;; first_jsonl xs
      | None => Ok JNull
      end
  | JArr xs =>
      if existsb (fun x => eq_str x "passage_sources") xs
      then Raise (Fault (BadSubscript meta)) else Ok JNull
  | JStr s =>
      if Str.contains "passage_sources" s
      then Raise (Fault (BadSubscript meta)) else Ok JNull
  | _ => Raise (Fault (NotAContainer meta))
  end.

(** Lines 233-238: the metadata file, probed at three conventional places;
    the last one is kept even when it does not exist. *)
Definition locate_meta (self : LEANNBridge) : path :=
  let meta_path := Path (str (index_path self) ++ ".meta.json")%string in
  if path_exists fs meta_path then meta_path
  else
    let meta_path := joinpath (index_path self) (Path "meta.json") in
    if path_exists fs meta_path then meta_path
    else joinpath (index_path self) (Path "code_index.meta.json").

(** Lines 258-266: the passage file for the path named in the metadata. *)
Definition resolve_pass_file (meta_path : path) (passage_path : string) : path :=
  (* 1. relative to the metadata file's directory *)
  let pass_file := joinpath (parent meta_path) (Path passage_path) in
  (* 2. absolute path *)
  let pass_file :=
    if negb (path_exists fs pass_file) then Path passage_path else pass_file in
  (* 3. relative to the working directory *)
  let pass_file :=
    if negb (path_exists fs pass_file) && negb (is_absolute (Path passage_path))
    then Path passage_path else pass_file in
  pass_file.

(** Lines 280-292, the body of the loop's [try]: the hit a line gives, if
    its text matches. *)
Definition match_line (pattern : regex rt) (line : string) : result (option entry) :=
  record <- loads line ;;
  t <- py_get record "text" JNull ;;
  c <- py_get record "content" JNull ;;
  match py_or (py_or t c) (JStr "") with
  | JStr content =>
      if re_search rt pattern content
      then metadata <- py_get record "metadata" (JObj []) ;;
           Ok (Some (Hit content metadata 1%float))
      else Ok None
  | v => Raise (Fault (BadSearchSubject v))
  end.

(** Lines 278-296: the loop over the lines, with [results] so far.  A line
    that raises is skipped; the bound is tested after each append. *)
Fixpoint scan (pattern : regex rt) (top_k : Z) (lines : list string)
    (results : list entry) : list entry :=
  match lines with
  | [] => results
  | line :: rest =>
      match match_line pattern line with
      | Ok (Some hit) =>
          let results := results ++ [hit] in
          if (Z.of_nat (length results) >=? top_k)%Z then results
          else scan pattern top_k rest results
      | Ok None => scan pattern top_k rest results
      | Raise _ => scan pattern top_k rest results
      end
  end.

(** Lines 231-302, the body of the outer [try]. *)
Definition manual_grep_body (self : LEANNBridge) (query : string) (top_k : Z)
    : result (list entry) :=
  let meta_path := locate_meta self in
  if negb (path_exists fs meta_path)
  then Ok [ErrorEntry ("Grep failed: Metadata not found at "
                       ++ str (index_path self) ++ "[.meta.json]")%string]
  else
    meta_text <- read_text fs meta_path ;;
    meta <- loads meta_text ;;
    passage_path <- find_passage_path meta ;;
    if negb (truthy passage_path)
    then Ok [ErrorEntry "Grep failed: No jsonl passage source found in metadata"]
    else
      match passage_path with
      | JStr passage_path =>
          let pass_file := resolve_pass_file meta_path passage_path in
          if negb (path_exists fs pass_file)
          then Ok [ErrorEntry ("Grep failed: Passage file not found at "
                               ++ str pass_file ++ " or " ++ passage_path)%string]
          else
            match re_compile rt query true with
            | inl msg => Ok [ErrorEntry ("Invalid regex pattern: " ++ msg)%string]
            | inr pattern =>
                log <- read_text fs pass_file ;;
                let results := scan pattern top_k (readlines log) [] in
                match results with
                | [] => Ok []   (* an empty list, not an error, for no matches *)
                | _ => Ok results
                end
            end
      | v => Raise (Fault (BadPathOperand v))
      end.

(** [_manual_grep]: whatever the body raises becomes an error entry. *)
Definition _manual_grep (self : LEANNBridge) (query : string) (top_k : Z)
    : result (list entry) :=
  try_except (manual_grep_body self query top_k)
    (fun e => Ok [ErrorEntry ("Manual grep fallback failed: " ++ str_exn rt e)%string]).

(** *** search *)

(** Lines 215-220: the library's result as an entry; [float(score)] of a
    numeric score is that score. *)
Definition format_result (r : SearchResult) : entry :=
  Hit (text r) (metadata r) (score r).

(** The test of lines 205 and 225. *)
Definition wants_fallback (use_grep : bool) (e : exn) : bool :=
  use_grep && Str.contains missing_passages_phrase (str_exn rt e).

(** The call [self._manual_grep(query, top_k)] as [search] makes it. *)
Definition call_manual_grep (self : LEANNBridge) (query : string) (top_k : Z)
    : traced (list entry) :=
  ([ManualGrep query top_k], _manual_grep self query top_k).

(** Lines 183-222, the body of the outer [try].  The inner [try] either
    falls through with the library's results ([inl]) or returns from
    [search] ([inr]). *)
Definition search_body (self : LEANNBridge) (query : string) (top_k : Z)
    (metadata_filters : option json) (use_grep : bool) : traced (list entry) :=
  let index := str (index_path self) in
  meta_data <~ tcall (NewSearcher index) (LeannSearcher lib index) ;;
  let is_pruned := dict_get meta_data "is_pruned" (JBool false) in
  let is_compact := dict_get meta_data "is_compact" (JBool false) in
  let recompute_required := py_or is_pruned is_compact in
  step <~ ttry
            (results <~ tcall (SearcherSearch query top_k metadata_filters use_grep
                                 recompute_required)
                          (searcher_search lib index query top_k metadata_filters
                             use_grep recompute_required) ;;
             tret (inl results))
            (fun search_err =>
               if wants_fallback use_grep search_err
               then r <~ call_manual_grep self query top_k ;; tret (inr r)
               else if truthy recompute_required
               then tret (inr [ErrorEntry (recompute_failure_text
                                           ++ str_exn rt search_err)%string])
               else traise search_err) ;;
  match step with
  | inr returned => tret returned
  | inl results => tret (map format_result results)
  end.

(** [search]. *)
Definition search (self : LEANNBridge) (query : string) (top_k : Z)
    (metadata_filters : option json) (use_grep : bool) : traced (list entry) :=
  ttry (search_body self query top_k metadata_filters use_grep)
    (fun e =>
       if wants_fallback use_grep e
       then call_manual_grep self query top_k
       else tret [ErrorEntry ("Search failed: " ++ str_exn rt e)%string]).

(** *** index_codebase *)

(** Line 108: [any(exc in file_path.parts for exc in exclude_dirs)]. *)
Definition excluded (exclude_dirs : list string) (file_path : path) : bool :=
  existsb (fun exc => Str.mem exc file_path) exclude_dirs.

(** [file_path.relative_to(root)]. *)
Definition relative_to (file_path root : path) : result path :=
  match strip_prefix root file_path with
  | Some rel => Ok rel
  | None => Raise (Fault (NotRelative file_path root))
  end.

(** Lines 128-134. *)
Definition file_metadata (rel_path : string) (file_path : path) (st : stat_result) : json :=
  JObj [("file_path", JStr rel_path);
        ("file_extension", JStr (suffix file_path));
        ("file_name", JStr (name file_path));
        ("file_size", JInt (st_size st));
        ("last_modified", JFloat (st_mtime st))].

(** Lines 116-141, the body of the per-file [try]. *)
Definition ingest_file (root : path) (st : walk_state) (file_path : path)
    : result walk_state :=
  content <- read_text fs file_path ;;
  if negb (Str.nonempty (Str.strip content)) then Ok st   (* continue *)
  else
    stat <- FS.stat fs file_path ;;
    rel <- relative_to file_path root ;;
    let metadata := file_metadata (str rel) file_path stat in
    match add_text lib (builder st) content metadata with
    | Some msg => Raise (Raised msg)
    | None =>
        Ok {| indexed_files := indexed_files st + 1;
              indexed_chunks := indexed_chunks st + 1;
              errors := errors st;
              builder := builder st ++ [(content, metadata)] |}
    end.

(** Lines 102-144, one round of the loop. *)
Definition visit (root : path) (extensions exclude_dirs : list string)
    (st : walk_state) (file_path : path) : walk_state :=
  if negb (is_file fs file_path) then st
  else if excluded exclude_dirs file_path then st
  else if negb (Str.mem (suffix file_path) extensions) then st
  else
    match ingest_file root st file_path with
    | Ok st' => st'
    | Raise e =>
        {| indexed_files := indexed_files st;
           indexed_chunks := indexed_chunks st;
           errors := errors st ++ [("Error indexing " ++ str file_path ++ ": "
                                    ++ str_exn rt e)%string];
           builder := builder st |}
    end.

Definition walk (root : path) (extensions exclude_dirs : list string)
    (files : list path) (st : walk_state) : walk_state :=
  fold_left (visit root extensions exclude_dirs) files st.

Definition fresh_walk : walk_state :=
  {| indexed_files := 0; indexed_chunks := 0; errors := []; builder := [] |}.

(** [index_codebase]: the passages handed to the builder, and the returned
    dictionary.  Constructing [LeannBuilder] with the fixed configuration of
    lines 90-95 gives an empty builder. *)
Definition index_codebase (self : LEANNBridge) (root_path : string)
    (extensions exclude_dirs : option (list string)) : list passage * index_report :=
  let extensions :=
    match extensions with None => default_extensions | Some l => l end in
  let exclude_dirs :=
    match exclude_dirs with None => default_exclude_dirs | Some l => l end in
  let root := Path root_path in
  if negb (path_exists fs root)
  then ([], IndexFailure ("Path does not exist: " ++ root_path)%string)
  else
    let st := walk root extensions exclude_dirs (rglob fs root) fresh_walk in
    match build_index lib (builder st) (str (index_path self)) with
    | Some msg => (builder st, IndexFailure ("Failed to build index: " ++ msg)%string)
    | None =>
        (builder st,
         IndexSuccess (indexed_files st) (indexed_chunks st) (errors st)
           (str (index_path self)))
    end.

End Bridge.

(** ** Vocabulary of the statements *)

(** Line 190: [recompute_required], from the searcher's [meta_data]. *)
Definition recompute_required (meta_data : list (string * json)) : json :=
  py_or (dict_get meta_data "is_pruned" (JBool false))
        (dict_get meta_data "is_compact" (JBool false)).

(** What the library answers to one [search]: the constructor's exception,
    or else the outcome of [searcher.search]. *)
Definition library_outcome (lib : Library) (index query : string) (top_k : Z)
    (metadata_filters : option json) (use_grep : bool) : string + list SearchResult :=
  match LeannSearcher lib index with
  | inl msg => inl msg
  | inr meta_data =>
      searcher_search lib index query top_k metadata_filters use_grep
        (recompute_required meta_data)
  end.

(** The library calls one [search] makes. *)
Definition library_calls (lib : Library) (index query : string) (top_k : Z)
    (metadata_filters : option json) (use_grep : bool) : list call :=
  match LeannSearcher lib index with
  | inl _ => [NewSearcher index]
  | inr meta_data =>
      [NewSearcher index;
       SearcherSearch query top_k metadata_filters use_grep (recompute_required meta_data)]
  end.

(** The error text for a library failure that is not escalated. *)
Definition failure_text (lib : Library) (index msg : string) : string :=
  match LeannSearcher lib index with
  | inr meta_data =>
      if truthy (recompute_required meta_data)
      then (recompute_failure_text ++ msg)%string
      else ("Search failed: " ++ msg)%string
  | inl _ => ("Search failed: " ++ msg)%string
  end.

(** Number of calls of [_manual_grep] in a trace. *)
Fixpoint fallback_calls (t : list call) : nat :=
  match t with
  | [] => 0
  | ManualGrep _ _ :: rest => S (fallback_calls rest)
  | _ :: rest => fallback_calls rest
  end.

Definition is_hit (e : entry) : bool :=
  match e with Hit _ _ _ => true | ErrorEntry _ => false end.

(** The entry that reports an unavailable recompute capability. *)
Definition recompute_unavailable (e : entry) : bool :=
  match e with
  | ErrorEntry msg => String.prefix recompute_failure_text msg
  | Hit _ _ _ => false
  end.

Definition score_of (e : entry) : option float :=
  match e with Hit _ _ s => Some s | ErrorEntry _ => None end.

(** The record the builder logs for a passage: [{"text", "metadata"}]. *)
Definition passage_record (p : passage) : json :=
  JObj [("text", JStr (fst p)); ("metadata", snd p)].

(** The hit the fallback reports for a passage. *)
Definition hit_of (p : passage) : entry := Hit (fst p) (snd p) 1%float.


(** The hits that the lines of a log give, in order. *)
Definition hits (rt : Runtime) (pattern : regex rt) (lines : list string) : list entry :=
  flat_map (fun line =>
              match match_line rt pattern line with
              | Ok (Some hit) => [hit]
              | _ => []
              end) lines.


(** Lines of a log that the builder wrote for the passages [P]. *)
Definition log_of (rt : Runtime) (lines : list string) (P : list passage) : Prop :=
  Forall2 (fun line p => json_loads rt line = inr (passage_record p)) lines P.

(** The fallback gets as far as the loop: the metadata file is found and
    decoded, it names a non-empty passage path, the pattern compiles to
    [pattern], and the resolved passage file reads as [log]. *)
Definition reaches_log (rt : Runtime) (fs : filesystem) (self : LEANNBridge)
    (query : string) (pattern : regex rt) (log : string) : Prop :=
  exists meta_text meta p,
    read_text fs (locate_meta fs self) = Ok meta_text
    /\ json_loads rt meta_text = inr meta
    /\ find_passage_path meta = Ok (JStr p)
    /\ p <> EmptyString
    /\ re_compile rt query true = inr pattern
    /\ read_text fs (resolve_pass_file fs (locate_meta fs self) p) = Ok log.

(** Lines 78-81: the filters in force. *)
Definition effective_extensions (extensions : option (list string)) : list string :=
  match extensions with None => default_extensions | Some l => l end.

Definition effective_exclude_dirs (exclude_dirs : option (list string)) : list string :=
  match exclude_dirs with None => default_exclude_dirs | Some l => l end.

(** Where a passage of the builder comes from: a regular file that passes
    the three filters of lines 104-121. *)
Definition ingested_from (fs : filesystem) (root : path) (extensions exclude_dirs : list string)
    (file_path : path) (p : passage) : Prop :=
  is_file fs file_path = true
  /\ (forall exc, In exc exclude_dirs -> ~ In exc file_path)
  /\ In (suffix file_path) extensions
  /\ exists content st rel,
       read_text fs file_path = Ok content
       /\ Str.blank content = false
       /\ Str.strip content <> EmptyString
       /\ FS.stat fs file_path = Ok st
       /\ relative_to file_path root = Ok rel
       /\ p = (content, file_metadata (str rel) file_path st).

(** ** A small concrete world

    Patterns are literal substrings (["("] does not compile), and the JSON
    decoder knows the listed documents. *)

Definition dq : string := String "034" EmptyString.

Definition nl : string := String "010" EmptyString.

Definition quoted (s : string) : string := (dq ++ s ++ dq)%string.

Fixpoint assoc (k : string) (table : list (string * json)) : option json :=
  match table with
  | [] => None
  | (k', v) :: rest => if String.eqb k k' then Some v else assoc k rest
  end.

Definition literal_runtime (documents : list (string * json)) : Runtime :=
  {| regex := string;
     re_compile := fun pattern _ =>
       if String.eqb pattern "(" then inl "missing ), unterminated subpattern at position 0"
       else inr pattern;
     re_search := fun pattern text => Str.contains pattern text;
     json_loads := fun text =>
       match assoc text documents with
       | Some v => inr v
       | None => inl "Expecting value: line 1 column 1 (char 0)"
       end;
     fault_text := fun _ => "built-in error" |}.

(** A library with fixed answers and a builder that accepts everything. *)
Definition fixed_library (opened : string + list (string * json))
    (found : string + list SearchResult) : Library :=
  {| LeannSearcher := fun _ => opened;
     searcher_search := fun _ _ _ _ _ _ => found;
     add_text := fun _ _ _ => None;
     build_index := fun _ _ => None |}.

(** The metadata file [LeannBuilder] writes next to an index. *)
Definition meta_text : string :=
  ("{" ++ quoted "passage_sources" ++ ": [{" ++ quoted "type" ++ ": " ++ quoted "jsonl"
   ++ ", " ++ quoted "path" ++ ": " ++ quoted "data/p.jsonl" ++ "}]}")%string.

Definition meta_value : json :=
  JObj [("passage_sources",
         JArr [JObj [("type", JStr "jsonl"); ("path", JStr "data/p.jsonl")]])].

Definition hello_line : string :=
  ("{" ++ quoted "text" ++ ": " ++ quoted "hello world" ++ ", " ++ quoted "metadata"
   ++ ": {}}" ++ nl)%string.

Definition bye_line : string :=
  ("{" ++ quoted "text" ++ ": " ++ quoted "goodbye" ++ ", " ++ quoted "metadata"
   ++ ": {}}" ++ nl)%string.

Definition demo_runtime : Runtime :=
  literal_runtime
    [(meta_text, meta_value);
     (hello_line, passage_record ("hello world", JObj []));
     (bye_line, passage_record ("goodbye", JObj []))].

Definition plain_stat : stat_result := {| st_size := 11; st_mtime := 0%float |}.

(** An index [store/idx] whose metadata names the log [data/p.jsonl]; the
    log exists below the working directory, not below [store]. *)
Definition demo_fs : filesystem :=
  [ (["store"], Directory);
    (["store"; "idx.meta.json"], RegularFile (Some meta_text) plain_stat);
    (["data"], Directory);
    (["data"; "p.jsonl"], RegularFile (Some (hello_line ++ bye_line)%string) plain_stat) ].

Definition demo_bridge : LEANNBridge := __init__ "store/idx".

(** Libraries with fixed answers for the planner. *)

Definition answering_library : Library :=
  fixed_library (inr [])
    (inr [{| text := "hello world"; metadata := JObj []; score := 0.5%float |}]).

Definition missing_log_library (meta_data : list (string * json)) : Library :=
  fixed_library (inr meta_data) (inl "No .jsonl passages file found").

Definition pruned_library : Library :=
  fixed_library (inr [("is_pruned", JBool true)]) (inl "embedding server did not start").

Definition demo_passages : list passage :=
  [("hello world", JObj []); ("goodbye", JObj [])].

(** A project tree for the ingestion walk. *)

Definition stat_of (size : Z) : stat_result := {| st_size := size; st_mtime := 0%float |}.

(** [/proj] with a source file, an empty document, a vendored script, a
    file that cannot be read, a file of another kind and a text file. *)
Definition project_fs : filesystem :=
  [ (["/"; "proj"], Directory);
    (["/"; "proj"; "a.py"], RegularFile (Some "hello world") (stat_of 11));
    (["/"; "proj"; "b.md"], RegularFile (Some "") (stat_of 0));
    (["/"; "proj"; "node_modules"], Directory);
    (["/"; "proj"; "node_modules"; "x.js"], RegularFile (Some "var x;") (stat_of 6));
    (["/"; "proj"; "locked.py"], RegularFile None (stat_of 4));
    (["/"; "proj"; "notes.rst"], RegularFile (Some "notes") (stat_of 5));
    (["/"; "proj"; "z.txt"], RegularFile (Some "after") (stat_of 5));
    (["/"; "srv"], Directory);
    (["/"; "srv"; "build"], Directory);
    (["/"; "srv"; "build"; "app"], Directory);
    (["/"; "srv"; "build"; "app"; "main.py"], RegularFile (Some "print(1)") (stat_of 8)) ].

Definition accepting_library : Library := fixed_library (inl "no index") (inl "no index").


Definition a_py_passage : passage :=
  ("hello world", file_metadata "a.py" ["/"; "proj"; "a.py"] (stat_of 11)).

Definition z_txt_passage : passage :=
  ("after", file_metadata "z.txt" ["/"; "proj"; "z.txt"] (stat_of 5)).

(** ** get_index_stats and list_files *)

(** The dictionary [get_index_stats] returns. *)
Inductive stats_report : Type :=
| StatsFailure (error : string)
| Stats (index_path : string) (index_size_bytes : Z) (index_size_mb : float)
    (index_exists : bool).

Definition placeholder_listing : string := "file_list_not_implemented_in_leann_yet".

Section Reports.

Context (rt : Runtime) (lib : Library) (fs : filesystem).

(** [round(total_size / (1024 * 1024), 2)] in the interpreter's floating
    point. *)
Context (megabytes : Z -> float).

(** Lines 313-317: [sum] over the generator, which stats the regular files
    in the order [rglob] yields them. *)
Fixpoint sum_sizes (files : list path) (total : Z) : result Z :=
  match files with
  | [] => Ok total
  | f :: rest =>
      if is_file fs f
      then st <- FS.stat fs f ;; sum_sizes rest (total + st_size st)
      else sum_sizes rest total
  end.

(** [get_index_stats]. *)
Definition get_index_stats (self : LEANNBridge) : result stats_report :=
  try_except
    (if negb (path_exists fs (index_path self))
     then Ok (StatsFailure "Index does not exist")
     else
       total_size <- sum_sizes (rglob fs (index_path self)) 0 ;;
       Ok (Stats (str (index_path self)) total_size (megabytes total_size) true))
    (fun e => Ok (StatsFailure ("Failed to get stats: " ++ str_exn rt e)%string)).

(** [list_files]. *)
Definition list_files (self : LEANNBridge) : traced (list string) :=
  let index := str (index_path self) in
  ttry
    (searcher <~ tcall (NewSearcher index) (LeannSearcher lib index) ;;
     tret [placeholder_listing])
    (fun e => tret [("Error listing files: " ++ str_exn rt e)%string]).

End Reports.

(** The size [stat] reports for a regular file. *)
Definition size_of (fs : filesystem) (p : path) : Z :=
  match FS.lookup fs p with
  | Some (RegularFile _ st) => st_size st
  | _ => 0
  end.

Definition sum_Z (l : list Z) : Z := fold_right Z.add 0%Z l.

(** The bytes of the regular files below a path. *)
Definition bytes_below (fs : filesystem) (root : path) : Z :=
  sum_Z (map (size_of fs) (filter (is_file fs) (rglob fs root))).

(** ** The process: descriptors, buffers and the command line

    [suppress_stdout] and [main] act on the descriptors of the process and
    on the text [sys.stdout] and [sys.stderr] hold.  A descriptor refers to
    a stream; [written] records what reached each stream.  [sys.stdout]
    holds its text until it is flushed, as it does when standard output is
    a pipe. *)

Module Proc.

Import Py.

Record process : Type := {
  table : list (nat * nat);
  stdout_pending : string;
  stderr_pending : string;
  written : list (nat * string);
}.

(** The stream a descriptor refers to, when it is open. *)
Fixpoint target (t : list (nat * nat)) (n : nat) : option nat :=
  match t with
  | [] => None
  | (m, s) :: rest => if Nat.eqb n m then Some s else target rest n
  end.

Definition drop (n : nat) (t : list (nat * nat)) : list (nat * nat) :=
  filter (fun e => negb (Nat.eqb (fst e) n)) t.

Definition is_free (t : list (nat * nat)) (n : nat) : bool :=
  match target t n with None => true | Some _ => false end.

(** The lowest descriptor that is not open. *)
Definition lowest_free (t : list (nat * nat)) : option nat :=
  find (is_free t) (seq 0 (S (length t))).

Definition bad_descriptor : exn := Raised "[Errno 9] Bad file descriptor".

Definition too_many_files : exn := Raised "[Errno 24] Too many open files".

(** A statement sequence on the process. *)
Definition io (A : Type) : Type := process -> process * result A.

Definition ret {A} (a : A) : io A := fun p => (p, Ok a).

Definition bind {A B} (m : io A) (k : A -> io B) : io B :=
  fun p =>
    match m p with
    | (p', Ok a) => k a p'
    | (p', Raise e) => (p', Raise e)
    end.

Definition with_table (p : process) (t : list (nat * nat)) : process :=
  {| table := t; stdout_pending := stdout_pending p;
     stderr_pending := stderr_pending p; written := written p |}.

(** [os.dup(n)]. *)
Definition os_dup (n : nat) : io nat :=
  fun p =>
    match target (table p) n with
    | None => (p, Raise bad_descriptor)
    | Some s =>
        match lowest_free (table p) with
        | Some m => (with_table p ((m, s) :: table p), Ok m)
        | None => (p, Raise too_many_files)
        end
    end.

(** [os.dup2(src, dst)]. *)
Definition os_dup2 (src dst : nat) : io unit :=
  fun p =>
    match target (table p) src with
    | None => (p, Raise bad_descriptor)
    | Some s => (with_table p ((dst, s) :: drop dst (table p)), Ok tt)
    end.

(** [os.close(n)]. *)
Definition os_close (n : nat) : io unit :=
  fun p =>
    match target (table p) n with
    | None => (p, Raise bad_descriptor)
    | Some _ => (with_table p (drop n (table p)), Ok tt)
    end.

(** A write of the C library on a descriptor; on a closed one it is lost. *)
Definition write_fd (n : nat) (text : string) (p : process) : process :=
  match target (table p) n with
  | None => p
  | Some s =>
      {| table := table p; stdout_pending := stdout_pending p;
         stderr_pending := stderr_pending p; written := written p ++ [(s, text)] |}
  end.

(** [sys.stdout.flush()]: the held text goes to descriptor 1. *)
Definition flush_stdout : io unit :=
  fun p =>
    match stdout_pending p with
    | EmptyString => (p, Ok tt)
    | text =>
        match target (table p) 1 with
        | None => (p, Raise bad_descriptor)
        | Some s =>
            ({| table := table p; stdout_pending := EmptyString;
                stderr_pending := stderr_pending p;
                written := written p ++ [(s, text)] |}, Ok tt)
        end
    end.

(** [sys.stderr.flush()]: the held text goes to descriptor 2. *)
Definition flush_stderr : io unit :=
  fun p =>
    match stderr_pending p with
    | EmptyString => (p, Ok tt)
    | text =>
        match target (table p) 2 with
        | None => (p, Raise bad_descriptor)
        | Some s =>
            ({| table := table p; stdout_pending := stdout_pending p;
                stderr_pending := EmptyString;
                written := written p ++ [(s, text)] |}, Ok tt)
        end
    end.

(** [print(text)]. *)
Definition print (text : string) : io unit :=
  fun p =>
    ({| table := table p;
        stdout_pending := (stdout_pending p ++ text ++ String "010" EmptyString)%string;
        stderr_pending := stderr_pending p; written := written p |}, Ok tt).

(** What library code may emit while it runs. *)
Inductive effect : Type :=
| WriteFd (n : nat) (text : string)   (* native code writing to a descriptor *)
| PrintOut (text : string)            (* text handed to [sys.stdout] *)
| PrintErr (text : string).           (* text handed to [sys.stderr] *)

Definition run_effect (p : process) (e : effect) : process :=
  match e with
  | WriteFd n text => write_fd n text p
  | PrintOut text =>
      {| table := table p; stdout_pending := (stdout_pending p ++ text)%string;
         stderr_pending := stderr_pending p; written := written p |}
  | PrintErr text =>
      {| table := table p; stdout_pending := stdout_pending p;
         stderr_pending := (stderr_pending p ++ text)%string; written := written p |}
  end.

Definition run_effects (noise : list effect) (p : process) : process :=
  fold_left run_effect noise p.

(** Lines 38-44, the [finally] block. *)
Definition restore_stdout (original_stdout_fd : nat) : io unit :=
  bind flush_stdout (fun _ =>
  bind flush_stderr (fun _ =>
  bind (os_dup2 original_stdout_fd 1) (fun _ =>
  os_close original_stdout_fd))).

(** [with suppress_stdout(): body].  The outcome of the body, a value or an
    exception, is the outcome of the statement unless the [finally] block
    raises. *)
Definition suppress_stdout {A} (body : io A) : io A :=
  fun p =>
    match os_dup 1 p with
    | (p, Raise e) => (p, Raise e)
    | (p, Ok original_stdout_fd) =>
        let '(p, outcome) :=
          match os_dup2 2 1 p with
          | (p, Raise e) => (p, Raise e)
          | (p, Ok _) => body p
          end in
        match restore_stdout original_stdout_fd p with
        | (p, Ok _) => (p, outcome)
        | (p, Raise e) => (p, Raise e)
        end
    end.

(** The text a stream has received. *)
Definition received (p : process) (s : nat) : string :=
  fold_right String.append EmptyString
    (map snd (filter (fun w => Nat.eqb (fst w) s) (written p))).

(** The write that a flush of held text makes. *)
Definition pending_write (s : nat) (text : string) : list (nat * string) :=
  match text with
  | EmptyString => []
  | _ => [(s, text)]
  end.

End Proc.

(** *** print_result and main *)

(** The arguments as [argparse] hands them to [main]. *)
Inductive command : Type :=
| CmdIndex (path : string) (extensions exclude : option (list string))
    (index_path : string)
| CmdSearch (query : string) (top_k : Z) (grep : bool) (filter : option string)
    (index_path : string)
| CmdStats (index_path : string)
| CmdNone.

(** The dictionaries of the three methods as JSON values. *)
Definition report_json (r : index_report) : json :=
  match r with
  | IndexFailure error => JObj [("error", JStr error)]
  | IndexSuccess files chunks warnings index =>
      JObj [("success", JBool true);
            ("indexed_files", JInt files);
            ("indexed_chunks", JInt chunks);
            ("errors", JArr (map JStr warnings));
            ("index_path", JStr index)]
  end.

Definition entry_json (e : entry) : json :=
  match e with
  | Hit content metadata score =>
      JObj [("content", JStr content); ("metadata", metadata); ("score", JFloat score)]
  | ErrorEntry error => JObj [("error", JStr error)]
  end.

Definition stats_json (r : stats_report) : json :=
  match r with
  | StatsFailure error => JObj [("error", JStr error)]
  | Stats index bytes mb there =>
      JObj [("index_path", JStr index);
            ("index_size_bytes", JInt bytes);
            ("index_size_mb", JFloat mb);
            ("exists", JBool there)]
  end.

Section CommandLine.

Context (rt : Runtime) (lib : Library) (fs : filesystem) (megabytes : Z -> float).

(** [json.dumps(result, indent=2)] and the text of [parser.print_help()]. *)
Context (dumps : json -> string) (help : string).

(** What the library emits while a method of the bridge runs. *)
Context (noise : list Proc.effect).

(** [print_result]. *)
Definition print_result (result : json) : Proc.io unit :=
  Proc.bind (Proc.print "---JSON_START---") (fun _ =>
  Proc.bind (Proc.print (dumps result)) (fun _ =>
  Proc.print "---JSON_END---")).

(** Lines 386-391: the filter given on the command line; one that is empty
    or is not JSON is dropped without a word. *)
Definition parse_filter (filter : option string) : option json :=
  match filter with
  | None => None
  | Some text =>
      if Str.nonempty text
      then match json_loads rt text with
           | inl _ => None
           | inr JNull => None
           | inr v => Some v
           end
      else None
  end.

(** A method of the bridge running inside the [with] block. *)
Definition in_block {A} (outcome : result A) : Proc.io A :=
  fun p => (Proc.run_effects noise p, outcome).

(** [main], after [parser.parse_args()] has returned the arguments; without a
    sub-command it writes the help text. *)
Definition main (args : command) : Proc.io unit :=
  match args with
  | CmdIndex path extensions exclude index =>
      Proc.bind
        (Proc.suppress_stdout
           (in_block (Ok (snd (index_codebase rt lib fs (__init__ index) path
                                 extensions exclude)))))
        (fun result => print_result (report_json result))
  | CmdSearch query top_k grep filter index =>
      Proc.bind
        (Proc.suppress_stdout
           (in_block (snd (search rt lib fs (__init__ index) query top_k
                             (parse_filter filter) grep))))
        (fun results => print_result (JArr (map entry_json results)))
  | CmdStats index =>
      Proc.bind
        (Proc.suppress_stdout (in_block (get_index_stats rt fs megabytes (__init__ index))))
        (fun stats => print_result (stats_json stats))
  | CmdNone => fun p => (Proc.run_effect p (Proc.PrintOut help), Ok tt)
  end.

End CommandLine.


(** The frame [print_result] puts around a value. *)
Definition frame (text : string) : string :=
  ("---JSON_START---" ++ String "010" EmptyString ++ text ++ String "010" EmptyString
   ++ "---JSON_END---" ++ String "010" EmptyString)%string.

(** The text a list of writes gives to one stream. *)
Definition stream_text (w : list (nat * string)) (s : nat) : string :=
  fold_right String.append EmptyString (map snd (filter (fun e => Nat.eqb (fst e) s) w)).

(** The noise keeps to the two standard descriptors. *)
Definition standard_noise (e : Proc.effect) : bool :=
  match e with
  | Proc.WriteFd n _ => Nat.eqb n 1 || Nat.eqb n 2
  | _ => true
  end.

(** A stand-in for the size in megabytes of an index below 5243 bytes,
    which rounds to 0.0. *)
Definition small_megabytes : Z -> float := fun _ => 0%float.

(** A process as it starts: the three standard descriptors on three
    streams, nothing held and nothing written. *)
Definition terminal : Proc.process :=
  {| Proc.table := [(0, 0); (1, 1); (2, 2)]%nat;
     Proc.stdout_pending := EmptyString;
     Proc.stderr_pending := EmptyString;
     Proc.written := [] |}.

(** Library noise: native output on descriptor 1, a printed line and a
    warning. *)
Definition demo_noise : list Proc.effect :=
  [Proc.WriteFd 1 "loading index"; Proc.PrintOut "INFO searching";
   Proc.PrintErr "WARN slow"].

(** [json.dumps(v, indent=2)] on the empty list and the empty dictionary. *)
Definition demo_dumps (v : json) : string :=
  match v with
  | JArr [] => "[]"
  | JObj [] => "{}"
  | _ => "null"
  end.

(** A body that writes and then raises. *)
Definition failing_body : Proc.io unit :=
  fun p => (Proc.write_fd 1 "about to fail" p, Raise (Raised "boom")).

(** ** Vocabulary for the fallback's error paths and for the walk *)


Definition is_dict (v : json) : bool :=
  match v with JObj _ => true | _ => false end.

(** A record of the log that carries the passage [p]: its text sits under
    ["text"], or under ["content"] when ["text"] is missing or empty, and its
    metadata under ["metadata"], an absent one standing for [{}]. *)
Definition record_carries (kvs : list (string * json)) (p : passage) : Prop :=
  (dict_get kvs "text" JNull = JStr (fst p) /\ fst p <> EmptyString
   \/ truthy (dict_get kvs "text" JNull) = false
      /\ dict_get kvs "content" JNull = JStr (fst p))
  /\ dict_get kvs "metadata" (JObj []) = snd p.

(** Lines of a log whose records carry the passages [P] under either field
    name. *)
Definition log_carries (rt : Runtime) (lines : list string) (P : list passage) : Prop :=
  Forall2 (fun line p => exists kvs, json_loads rt line = inr (JObj kvs)
                                     /\ record_carries kvs p) lines P.

(** Line 282: the value the pattern is tried on. *)
Definition chosen_text (kvs : list (string * json)) : json :=
  py_or (py_or (dict_get kvs "text" JNull) (dict_get kvs "content" JNull)) (JStr "").

Definition is_str (v : json) : bool :=
  match v with JStr _ => true | _ => false end.

(** A line the loop cannot use: it is not JSON, or not a dictionary, or the
    value it offers as text is not a string. *)
Definition unusable_line (rt : Runtime) (line : string) : Prop :=
  (exists msg, json_loads rt line = inl msg)
  \/ (exists v, json_loads rt line = inr v /\ is_dict v = false)
  \/ (exists kvs, json_loads rt line = inr (JObj kvs) /\ is_str (chosen_text kvs) = false).

(** A log read line by line: each line carries a passage or is unusable. *)
Definition log_holds (rt : Runtime) (lines : list string) (slots : list (option passage))
    : Prop :=
  Forall2 (fun line slot =>
             match slot with
             | Some p => exists kvs, json_loads rt line = inr (JObj kvs)
                                     /\ record_carries kvs p
             | None => unusable_line rt line
             end) lines slots.

Definition passages_of (slots : list (option passage)) : list passage :=
  flat_map (fun slot => match slot with Some p => [p] | None => [] end) slots.

(** Number of calls of the library's [search] in a trace. *)
Fixpoint library_searches (t : list call) : nat :=
  match t with
  | [] => 0
  | SearcherSearch _ _ _ _ _ :: rest => S (library_searches rest)
  | _ :: rest => library_searches rest
  end.

(** The tests of lines 104-113 that a visited path must pass to be opened. *)
Definition eligible (fs : filesystem) (extensions exclude_dirs : list string)
    (file_path : path) : bool :=
  is_file fs file_path
  && negb (excluded exclude_dirs file_path)
  && Str.mem (suffix file_path) extensions.

(** A file whose text can be read and is empty or whitespace only. *)
Definition blank_file (fs : filesystem) (file_path : path) : bool :=
  match read_text fs file_path with
  | Ok content => Str.blank content
  | Raise _ => false
  end.

Definition count {A} (f : A -> bool) (l : list A) : nat := length (filter f l).


(** A second index, [store/mix]: its log has a record with the text under
    ["content"], a line that is not JSON, a record whose text is a number
    and a record without metadata. *)

Definition content_line : string :=
  ("{" ++ quoted "content" ++ ": " ++ quoted "alpha one" ++ ", " ++ quoted "metadata"
   ++ ": {" ++ quoted "k" ++ ": 1}}" ++ nl)%string.

Definition garbage_line : string := ("not json" ++ nl)%string.

Definition number_line : string :=
  ("{" ++ quoted "text" ++ ": 5}" ++ nl)%string.

Definition bare_line : string :=
  ("{" ++ quoted "text" ++ ": " ++ quoted "alpha two" ++ "}" ++ nl)%string.

Definition mixed_log : string :=
  (content_line ++ garbage_line ++ number_line ++ bare_line)%string.

Definition mixed_meta_text : string :=
  ("{" ++ quoted "passage_sources" ++ ": [{" ++ quoted "type" ++ ": " ++ quoted "csv"
   ++ "}, {" ++ quoted "type" ++ ": " ++ quoted "jsonl" ++ ", " ++ quoted "path" ++ ": "
   ++ quoted "mix.jsonl" ++ "}]}")%string.

Definition mixed_meta_value : json :=
  JObj [("passage_sources",
         JArr [JObj [("type", JStr "csv")];
               JObj [("type", JStr "jsonl"); ("path", JStr "mix.jsonl")]])].

(** The metadata of a third index, [store/odd]: its first jsonl source has
    no path, the second one has.  A fourth index, [vault/idx], names a log
    that exists and cannot be read. *)
Definition pathless_meta_text : string :=
  ("{" ++ quoted "passage_sources" ++ ": [{" ++ quoted "type" ++ ": " ++ quoted "jsonl"
   ++ "}, {" ++ quoted "type" ++ ": " ++ quoted "jsonl" ++ ", " ++ quoted "path" ++ ": "
   ++ quoted "mix.jsonl" ++ "}]}")%string.

Definition pathless_meta_value : json :=
  JObj [("passage_sources",
         JArr [JObj [("type", JStr "jsonl")];
               JObj [("type", JStr "jsonl"); ("path", JStr "mix.jsonl")]])].

Definition mixed_runtime : Runtime :=
  literal_runtime
    [(mixed_meta_text, mixed_meta_value);
     (pathless_meta_text, pathless_meta_value);
     (content_line, JObj [("content", JStr "alpha one"); ("metadata", JObj [("k", JInt 1)])]);
     (number_line, JObj [("text", JInt 5)]);
     (bare_line, JObj [("text", JStr "alpha two")])].

Definition mixed_fs : filesystem :=
  [ (["store"], Directory);
    (["store"; "mix.meta.json"], RegularFile (Some mixed_meta_text) plain_stat);
    (["store"; "mix.jsonl"], RegularFile (Some mixed_log) plain_stat);
    (["store"; "odd"], Directory);
    (["store"; "odd"; "meta.json"], RegularFile (Some pathless_meta_text) plain_stat);
    (["vault"], Directory);
    (["vault"; "idx.meta.json"], RegularFile (Some mixed_meta_text) plain_stat);
    (["vault"; "mix.jsonl"], RegularFile None plain_stat) ].

Definition mixed_passages : list passage :=
  [("alpha one", JObj [("k", JInt 1)]); ("alpha two", JObj [])].


(** ** The path algebra on examples

    Values that [pathlib.PurePosixPath] gives for the same arguments. *)

Example Path_parts :
  map Path ["./leann_index"; "/a//b/./c/"; "//x/y"; ""; "///a"; "a/.."]
  = [["leann_index"]; ["/"; "a"; "b"; "c"]; ["//"; "x"; "y"]; []; ["/"; "a"]; ["a"; ".."]].
Proof. reflexivity. Qed.

Example Path_suffix :
  map (fun s => suffix (Path s)) ["/proj/a.py"; "a.tar.gz"; ".bashrc"; "a."; "a..b"; "..."]
  = [".py"; ".gz"; ""; ""; ".b"; ""].
Proof. reflexivity. Qed.

Example Path_joinpath_parent :
  joinpath (parent (Path "store/idx.meta.json")) (Path "data/p.jsonl")
    = ["store"; "data"; "p.jsonl"]
  /\ joinpath (parent (Path "store/idx.meta.json")) (Path "/var/p.jsonl")
     = ["/"; "var"; "p.jsonl"]
  /\ parent (Path "idx.meta.json") = []
  /\ PurePath.str (Path "") = ".".
Proof. repeat split; reflexivity. Qed.

Example readlines_universal :
  readlines ("a" ++ String "013" nl ++ "b" ++ String "013" "c" ++ nl ++ nl ++ "d")%string
  = [("a" ++ nl)%string; ("b" ++ nl)%string; ("c" ++ nl)%string; nl; "d"].
Proof. reflexivity. Qed.

(** ** The query planner *)

Lemma prefix_app (p s : string) : String.prefix p (p ++ s) = true.
Proof.
  induction p as [| c p IH]; cbn; [ destruct s; reflexivity | ].
  destruct (Ascii.ascii_dec c c); [ exact IH | congruence ].
Qed.

Section SearchFacts.

Context (rt : Runtime) (lib : Library) (fs : filesystem).

(** [_manual_grep] turns every exception of its body into an entry. *)
Lemma manual_grep_returns (self : LEANNBridge) (query : string) (top_k : Z) :
  exists entries, _manual_grep rt fs self query top_k = Ok entries.
Proof.
  unfold _manual_grep, try_except.
  destruct (manual_grep_body rt fs self query top_k); eauto.
Qed.

(** One equation for [search]: the library is always consulted; its results
    are formatted, its failure is escalated to [_manual_grep] or reported. *)
Lemma search_unfold (self : LEANNBridge) (query : string) (top_k : Z)
    (metadata_filters : option json) (use_grep : bool) :
  let index := str (index_path self) in
  search rt lib fs self query top_k metadata_filters use_grep =
  match library_outcome lib index query top_k metadata_filters use_grep with
  | inr results =>
      (library_calls lib index query top_k metadata_filters use_grep,
       Ok (map format_result results))
  | inl msg =>
      if use_grep && Str.contains missing_passages_phrase msg
      then (library_calls lib index query top_k metadata_filters use_grep
              ++ [ManualGrep query top_k],
            _manual_grep rt fs self query top_k)
      else (library_calls lib index query top_k metadata_filters use_grep,
            Ok [ErrorEntry (failure_text lib index msg)])
  end.
Proof.
  intros index.
  destruct (manual_grep_returns self query top_k) as [entries Hfallback].
  unfold search, search_body, library_outcome, library_calls, failure_text,
    call_manual_grep, wants_fallback, recompute_required.
  fold index.
  destruct (LeannSearcher lib index) as [msg | meta_data]; cbn.
  - destruct (use_grep && Str.contains missing_passages_phrase msg); reflexivity.
  - destruct (searcher_search lib index query top_k metadata_filters use_grep _)
      as [msg | results]; cbn; [ | reflexivity ].
    destruct (use_grep && Str.contains missing_passages_phrase msg) eqn:Hesc; cbn.
    + rewrite Hfallback. reflexivity.
    + destruct (truthy _); cbn; [ reflexivity | ].
      rewrite Hesc. reflexivity.
Qed.

Lemma fallback_calls_app (t1 t2 : list call) :
  fallback_calls (t1 ++ t2) = (fallback_calls t1 + fallback_calls t2)%nat.
Proof.
  induction t1 as [| c t1 IH]; [ reflexivity | ].
  destruct c; cbn; rewrite IH; reflexivity.
Qed.

Lemma library_calls_no_fallback (index query : string) (top_k : Z)
    (metadata_filters : option json) (use_grep : bool) :
  fallback_calls (library_calls lib index query top_k metadata_filters use_grep) = 0%nat.
Proof.
  unfold library_calls. destruct (LeannSearcher lib index); reflexivity.
Qed.

(** C1 (as the code has it): with [use_grep=True], [search] still opens the
    searcher and, when that succeeds, calls the library's [search] with
    [use_grep=True] forwarded.  [_manual_grep] is not called when the
    library answers; it is called, once and after the library, exactly when
    the library raises an exception whose message contains
    "No .jsonl passages file found", and then its result is returned. *)
Theorem search_use_grep_dispatch (self : LEANNBridge) (query : string) (top_k : Z)
    (metadata_filters : option json) :
  let index := str (index_path self) in
  let r := search rt lib fs self query top_k metadata_filters true in
  (exists rest, fst r = NewSearcher index :: rest)
  /\ (forall meta_data, LeannSearcher lib index = inr meta_data ->
        exists rest,
          fst r = NewSearcher index
                  :: SearcherSearch query top_k metadata_filters true
                       (recompute_required meta_data)
                  :: rest)
  /\ (forall results,
        library_outcome lib index query top_k metadata_filters true = inr results ->
        fallback_calls (fst r) = 0%nat /\ snd r = Ok (map format_result results))
  /\ (forall msg,
        library_outcome lib index query top_k metadata_filters true = inl msg ->
        Str.contains missing_passages_phrase msg = true ->
        fst r = library_calls lib index query top_k metadata_filters true
                ++ [ManualGrep query top_k]
        /\ fallback_calls (fst r) = 1%nat
        /\ snd r = _manual_grep rt fs self query top_k)
  /\ (forall msg,
        library_outcome lib index query top_k metadata_filters true = inl msg ->
        Str.contains missing_passages_phrase msg = false ->
        fallback_calls (fst r) = 0%nat
        /\ snd r = Ok [ErrorEntry (failure_text lib index msg)]).
Proof.
  intros index r.
  pose proof (search_unfold self query top_k metadata_filters true) as E.
  cbv zeta in E. fold index in E. fold r in E.
  pose proof (library_calls_no_fallback index query top_k metadata_filters true) as Hno.
  split; [ | split; [ | split; [ | split ] ] ].
  - rewrite E. unfold library_calls.
    destruct (library_outcome lib index query top_k metadata_filters true) as [msg | results];
      [ destruct (true && Str.contains missing_passages_phrase msg) | ];
      destruct (LeannSearcher lib index); cbn; eauto.
  - intros meta_data Hopen. rewrite E. unfold library_calls. rewrite Hopen.
    destruct (library_outcome lib index query top_k metadata_filters true) as [msg | results];
      [ destruct (true && Str.contains missing_passages_phrase msg) | ]; cbn; eauto.
  - intros results Hok. rewrite E, Hok. split; [ exact Hno | reflexivity ].
  - intros msg Hfail Hphrase. rewrite E, Hfail. cbn [andb]. rewrite Hphrase. cbn [fst snd].
    rewrite fallback_calls_app, Hno. repeat split.
  - intros msg Hfail Hphrase. rewrite E, Hfail. cbn [andb]. rewrite Hphrase.
    split; [ exact Hno | reflexivity ].
Qed.

(** C2 (as the code has it): a library failure is escalated to
    [_manual_grep] exactly when [use_grep] is set and the message contains
    "No .jsonl passages file found"; the fallback is then called once and
    its result returned.  Every other failure makes no fallback call and is
    reported as one error entry whose text ends with the message. *)
Theorem search_escalation_policy (self : LEANNBridge) (query : string) (top_k : Z)
    (metadata_filters : option json) (use_grep : bool) (msg : string) :
  library_outcome lib (str (index_path self)) query top_k metadata_filters use_grep
    = inl msg ->
  let index := str (index_path self) in
  let r := search rt lib fs self query top_k metadata_filters use_grep in
  if use_grep && Str.contains missing_passages_phrase msg
  then fallback_calls (fst r) = 1%nat
       /\ fst r = library_calls lib index query top_k metadata_filters use_grep
                  ++ [ManualGrep query top_k]
       /\ snd r = _manual_grep rt fs self query top_k
  else fallback_calls (fst r) = 0%nat
       /\ snd r = Ok [ErrorEntry (failure_text lib index msg)]
       /\ exists prefix, failure_text lib index msg = (prefix ++ msg)%string.
Proof.
  intros Hfail index r.
  pose proof (search_unfold self query top_k metadata_filters use_grep) as E.
  cbv zeta in E. fold index in E. fold r in E. fold index in Hfail.
  rewrite Hfail in E.
  pose proof (library_calls_no_fallback index query top_k metadata_filters use_grep) as Hno.
  destruct (use_grep && Str.contains missing_passages_phrase msg); rewrite E; cbn.
  - rewrite fallback_calls_app, Hno. repeat split; reflexivity.
  - repeat split; [ exact Hno | ].
    unfold failure_text.
    destruct (LeannSearcher lib index) as [| meta_data]; [ eauto | ].
    destruct (truthy (recompute_required meta_data)); eauto.
Qed.

(** C3 (as the code has it): when the index's metadata has [is_pruned] or
    [is_compact] set, the library's [search] is called with
    [recompute_embeddings=True]; if that call raises and the failure is not
    escalated to the fallback (escalation needs [use_grep] and the
    missing-passages message), [search] returns exactly one entry, the
    recompute-unavailable error that asks for a re-index, followed by the
    library's message. *)
Theorem search_recompute_required_reports (self : LEANNBridge) (query : string)
    (top_k : Z) (metadata_filters : option json) (use_grep : bool)
    (meta_data : list (string * json)) (pruned compact : bool) :
  LeannSearcher lib (str (index_path self)) = inr meta_data ->
  dict_get meta_data "is_pruned" (JBool false) = JBool pruned ->
  dict_get meta_data "is_compact" (JBool false) = JBool compact ->
  pruned || compact = true ->
  let index := str (index_path self) in
  let r := search rt lib fs self query top_k metadata_filters use_grep in
  (exists rest,
     fst r = NewSearcher index
             :: SearcherSearch query top_k metadata_filters use_grep (JBool true)
             :: rest)
  /\ (forall msg,
        searcher_search lib index query top_k metadata_filters use_grep (JBool true)
          = inl msg ->
        use_grep && Str.contains missing_passages_phrase msg = false ->
        snd r = Ok [ErrorEntry (recompute_failure_text ++ msg)%string]
        /\ existsb recompute_unavailable [ErrorEntry (recompute_failure_text ++ msg)%string]
           = true).
Proof.
  intros Hopen Hp Hc Hreq index r.
  assert (Hrr : recompute_required meta_data = JBool true).
  { unfold recompute_required, py_or. rewrite Hp, Hc.
    destruct pruned, compact; try discriminate; reflexivity. }
  pose proof (search_unfold self query top_k metadata_filters use_grep) as E.
  cbv zeta in E. fold index in E, Hopen. fold r in E.
  unfold library_outcome, library_calls, failure_text in E.
  rewrite Hopen, Hrr in E. cbn [truthy] in E.
  split.
  - rewrite E.
    destruct (searcher_search lib index query top_k metadata_filters use_grep (JBool true))
      as [msg | results];
      [ destruct (use_grep && Str.contains missing_passages_phrase msg) | ]; cbn; eauto.
  - intros msg Hfail Hkeep. rewrite E, Hfail, Hkeep. split; [ reflexivity | ].
    cbn [existsb recompute_unavailable]. rewrite orb_false_r.
    apply prefix_app.
Qed.

(** The loop of [_manual_grep] only ever appends hits. *)
Lemma scan_hits (pattern : regex rt) (top_k : Z) (lines : list string) :
  forall results,
    forallb is_hit results = true ->
    forallb is_hit (scan rt pattern top_k lines results) = true.
Proof.
  induction lines as [| line rest IH]; intros results Hres; cbn; [ exact Hres | ].
  destruct (match_line rt pattern line) as [[hit |] | e] eqn:Hline; auto.
  assert (Hhit : is_hit hit = true).
  { unfold match_line, loads, bind in Hline.
    destruct (json_loads rt line) as [| record]; [ discriminate | ].
    destruct (py_get record "text" JNull); [ | discriminate ].
    destruct (py_get record "content" JNull); [ | discriminate ].
    destruct (py_or _ _) as [| | | | content | |]; try discriminate.
    destruct (re_search rt pattern content); [ | discriminate ].
    destruct (py_get record "metadata" (JObj [])); [ | discriminate ].
    injection Hline as <-. reflexivity. }
  assert (Hres' : forallb is_hit (results ++ [hit]) = true).
  { rewrite forallb_app, Hres. cbn. rewrite Hhit. reflexivity. }
  destruct (Z.of_nat (length (results ++ [hit])) >=? top_k)%Z; auto.
Qed.



End SearchFacts.

(** *** The planner on the concrete world *)

(** C1, counterexample to direct routing: with [use_grep=True] and a
    library that answers, [search] calls the library's [search] and never
    calls [_manual_grep]; the entries returned are the library's. *)
Lemma search_use_grep_not_direct :
  let r := search demo_runtime answering_library demo_fs demo_bridge "hello" 10 None true in
  fst r = [NewSearcher "store/idx"; SearcherSearch "hello" 10 None true (JBool false)]
  /\ fallback_calls (fst r) = 0%nat
  /\ snd r = Ok [Hit "hello world" (JObj []) 0.5%float].
Proof. cbv zeta. repeat split; reflexivity. Qed.

(** C2, counterexample to escalation regardless of the other parameters: the
    library fails with the missing-passages message, [use_grep] is false,
    and [search] makes no fallback call but reports the failure. *)
Lemma search_missing_log_without_grep_not_escalated :
  let r := search demo_runtime (missing_log_library []) demo_fs demo_bridge
             "hello" 10 None false in
  library_outcome (missing_log_library []) "store/idx" "hello" 10 None false
    = inl "No .jsonl passages file found"
  /\ Str.contains missing_passages_phrase "No .jsonl passages file found" = true
  /\ fallback_calls (fst r) = 0%nat
  /\ snd r = Ok [ErrorEntry "Search failed: No .jsonl passages file found"].
Proof. cbv zeta. repeat split; reflexivity. Qed.

Lemma search_escalation_policy_witness :
  library_outcome (missing_log_library []) (str (index_path demo_bridge)) "hello" 10 None true
    = inl "No .jsonl passages file found"
  /\ (let r := search demo_runtime (missing_log_library []) demo_fs demo_bridge
                 "hello" 10 None true in
      fallback_calls (fst r) = 1%nat
      /\ fst r = library_calls (missing_log_library []) (str (index_path demo_bridge))
                   "hello" 10 None true ++ [ManualGrep "hello" 10]
      /\ snd r = _manual_grep demo_runtime demo_fs demo_bridge "hello" 10).
Proof.
  split; [ reflexivity | ].
  exact (search_escalation_policy demo_runtime (missing_log_library []) demo_fs
           demo_bridge "hello" 10 None true "No .jsonl passages file found" eq_refl).
Defined.

(** C3, counterexample to "never an empty success": the index is pruned, the
    library's [search] raises the missing-passages message under
    [use_grep=True], the failure is escalated, and the fallback finds no
    match: [search] returns the empty list. *)
Lemma search_pruned_escalated_empty_success :
  search demo_runtime (missing_log_library [("is_pruned", JBool true)]) demo_fs demo_bridge
    "zzz" 10 None true
  = ([NewSearcher "store/idx"; SearcherSearch "zzz" 10 None true (JBool true);
      ManualGrep "zzz" 10],
     Ok []).
Proof. reflexivity. Qed.

Lemma search_recompute_required_reports_witness :
  LeannSearcher pruned_library (str (index_path demo_bridge))
    = inr [("is_pruned", JBool true)]
  /\ dict_get [("is_pruned", JBool true)] "is_pruned" (JBool false) = JBool true
  /\ dict_get [("is_pruned", JBool true)] "is_compact" (JBool false) = JBool false
  /\ true || false = true
  /\ snd (search demo_runtime pruned_library demo_fs demo_bridge "hello" 10 None false)
     = Ok [ErrorEntry (recompute_failure_text ++ "embedding server did not start")%string].
Proof.
  do 4 (split; [ reflexivity | ]).
  exact (proj1 (proj2 (search_recompute_required_reports demo_runtime pruned_library demo_fs
                  demo_bridge "hello" 10 None false [("is_pruned", JBool true)] true false
                  eq_refl eq_refl eq_refl eq_refl)
                "embedding server did not start" eq_refl eq_refl)).
Defined.

(** ** The exact-match fallback *)

Section GrepFacts.

Context (rt : Runtime) (fs : filesystem).


(** A file that can be read exists. *)
Lemma read_text_exists (p : path) (text : string) :
  read_text fs p = Ok text -> path_exists fs p = true.
Proof.
  unfold read_text, path_exists. destruct (FS.lookup fs p); [ reflexivity | discriminate ].
Qed.


(** Once the loop is reached, the entries returned are those it collects
    from the resolved file. *)
Lemma manual_grep_scans (self : LEANNBridge) (query : string) (top_k : Z)
    (pattern : regex rt) (log : string) :
  reaches_log rt fs self query pattern log ->
  _manual_grep rt fs self query top_k = Ok (scan rt pattern top_k (readlines log) []).
Proof.
  intros (meta_text & meta & p & Hmeta & Hjson & Hpath & Hp & Hre & Hlog).
  unfold _manual_grep, manual_grep_body, loads.
  rewrite (read_text_exists _ _ Hmeta), Hmeta. cbn.
  rewrite Hjson. cbn. rewrite Hpath. cbn.
  destruct p as [| c p]; [ congruence | ]. cbn [truthy Str.nonempty negb].
  rewrite (read_text_exists _ _ Hlog), Hre, Hlog. cbn.
  destruct (scan rt pattern top_k (readlines log) []); reflexivity.
Qed.

(** The loop returns what it had, then the first hits of the remaining
    lines: as many as are still missing to reach [top_k], and one at least. *)
Lemma scan_firstn (pattern : regex rt) (top_k : Z) (lines : list string) :
  forall results,
    scan rt pattern top_k lines results =
    results ++ firstn (Z.to_nat (Z.max 1 (top_k - Z.of_nat (length results))))
                 (hits rt pattern lines).
Proof.
  induction lines as [| line rest IH]; intros results; cbn [scan hits flat_map].
  - rewrite firstn_nil, app_nil_r. reflexivity.
  - fold (hits rt pattern rest).
    destruct (match_line rt pattern line) as [[hit |] | e]; cbn [app]; auto.
    pose proof (length_app results [hit]) as Hlen. cbn in Hlen.
    destruct (Z.of_nat (length (results ++ [hit])) >=? top_k)%Z eqn:Hstop.
    + replace (Z.to_nat (Z.max 1 (top_k - Z.of_nat (length results)))) with 1%nat by lia.
      reflexivity.
    + rewrite IH, <- app_assoc. cbn [app]. f_equal.
      replace (Z.to_nat (Z.max 1 (top_k - Z.of_nat (length results))))
        with (S (Z.to_nat (Z.max 1 (top_k - Z.of_nat (length (results ++ [hit]))))))
        by lia.
      reflexivity.
Qed.




(** C9: with [top_k <= 0] and a log in which at least one line matches, the
    fallback returns exactly one entry, the hit of the first matching line:
    the bound is compared only after a hit has been appended. *)
Theorem manual_grep_nonpositive_top_k_one_hit (self : LEANNBridge) (query : string)
    (top_k : Z) (pattern : regex rt) (log : string) (first : entry)
    (others : list entry) :
  reaches_log rt fs self query pattern log ->
  hits rt pattern (readlines log) = first :: others ->
  (top_k <= 0)%Z ->
  exists entries,
    _manual_grep rt fs self query top_k = Ok entries
    /\ entries = [first]
    /\ length entries = 1%nat.
Proof.
  intros Hreach Hhits Hk.
  exists [first]. split; [ | split; reflexivity ].
  rewrite (manual_grep_scans self query top_k pattern log Hreach).
  rewrite scan_firstn, Hhits. cbn [length app].
  replace (Z.to_nat (Z.max 1 (top_k - Z.of_nat 0))) with 1%nat by lia.
  reflexivity.
Qed.

(** A line that holds the record of a passage whose text matches gives the
    hit of that passage. *)
Lemma match_line_record (pattern : regex rt) (line : string) (p : passage) :
  json_loads rt line = inr (passage_record p) ->
  re_search rt pattern (fst p) = true ->
  match_line rt pattern line = Ok (Some (hit_of p)).
Proof.
  intros Hline Hp. unfold match_line, loads. rewrite Hline.
  destruct p as [[| c text] meta]; cbn in Hp |- *; rewrite Hp; reflexivity.
Qed.

Lemma hits_of_log (pattern : regex rt) (lines : list string) (P : list passage) :
  log_of rt lines P ->
  Forall (fun p => re_search rt pattern (fst p) = true) P ->
  hits rt pattern lines = map hit_of P.
Proof.
  intros Hlog. induction Hlog as [| line p lines P Hline _ IH]; intros Hmatch;
    [ reflexivity | ].
  inversion Hmatch as [| ? ? Hp HP]; subst.
  cbn [hits flat_map map]. fold (hits rt pattern lines).
  rewrite (IH HP), (match_line_record pattern line p Hline Hp). reflexivity.
Qed.

(** Round trip for a positive bound: a log written for passages [P], all of
    whose texts the pattern matches, yields the first [top_k] passages of
    [P] as hits with score 1.0, that is [min (len P) top_k] entries. *)
Lemma manual_grep_round_trip (self : LEANNBridge) (query : string) (top_k : Z)
    (pattern : regex rt) (log : string) (P : list passage) :
  reaches_log rt fs self query pattern log ->
  log_of rt (readlines log) P ->
  Forall (fun p => re_search rt pattern (fst p) = true) P ->
  (1 <= top_k)%Z ->
  exists entries,
    _manual_grep rt fs self query top_k = Ok entries
    /\ entries = map hit_of (firstn (Z.to_nat top_k) P)
    /\ Z.of_nat (length entries) = Z.min (Z.of_nat (length P)) top_k
    /\ Forall (fun e => score_of e = Some 1%float) entries.
Proof.
  intros Hreach HP Hmatch Hk.
  exists (map hit_of (firstn (Z.to_nat top_k) P)).
  split; [ | split; [ reflexivity | split ] ].
  - rewrite (manual_grep_scans self query top_k pattern log Hreach).
    rewrite scan_firstn, (hits_of_log pattern _ P HP Hmatch). cbn [length app].
    replace (Z.to_nat (Z.max 1 (top_k - Z.of_nat 0))) with (Z.to_nat top_k) by lia.
    rewrite firstn_map. reflexivity.
  - rewrite length_map, length_firstn. lia.
  - apply Forall_forall. intros e He. apply in_map_iff in He as (q & <- & _). reflexivity.
Qed.

(** A readable log without any matching line gives the empty list, not an
    error entry, whatever the bound. *)
Lemma manual_grep_no_match_empty (self : LEANNBridge) (query : string) (top_k : Z)
    (pattern : regex rt) (log : string) :
  reaches_log rt fs self query pattern log ->
  hits rt pattern (readlines log) = [] ->
  _manual_grep rt fs self query top_k = Ok [].
Proof.
  intros Hreach Hhits.
  rewrite (manual_grep_scans self query top_k pattern log Hreach).
  rewrite scan_firstn, Hhits, firstn_nil. reflexivity.
Qed.

End GrepFacts.

(** *** The fallback on the concrete world *)



Lemma demo_reaches_log (query : string) :
  String.eqb query "(" = false ->
  reaches_log demo_runtime demo_fs demo_bridge query query (hello_line ++ bye_line)%string.
Proof.
  intros Hquery. exists meta_text, meta_value, "data/p.jsonl".
  split; [ reflexivity | ]. split; [ reflexivity | ]. split; [ reflexivity | ].
  split; [ discriminate | ]. split; [ | reflexivity ].
  cbn. rewrite Hquery. reflexivity.
Qed.

Lemma manual_grep_nonpositive_top_k_one_hit_witness :
  reaches_log demo_runtime demo_fs demo_bridge "o" ("o" : regex demo_runtime)
    (hello_line ++ bye_line)%string
  /\ hits demo_runtime ("o" : regex demo_runtime) (readlines (hello_line ++ bye_line))
     = [hit_of ("hello world", JObj []); hit_of ("goodbye", JObj [])]
  /\ (-3 <= 0)%Z
  /\ exists entries,
       _manual_grep demo_runtime demo_fs demo_bridge "o" (-3) = Ok entries
       /\ entries = [hit_of ("hello world", JObj [])]
       /\ length entries = 1%nat.
Proof.
  assert (Hk : (-3 <= 0)%Z) by lia.
  split; [ exact (demo_reaches_log "o" eq_refl) | ].
  split; [ reflexivity | ]. split; [ exact Hk | ].
  exact (manual_grep_nonpositive_top_k_one_hit demo_runtime demo_fs demo_bridge "o" (-3)
           "o" (hello_line ++ bye_line)%string
           (hit_of ("hello world", JObj [])) [hit_of ("goodbye", JObj [])]
           (demo_reaches_log "o" eq_refl) eq_refl Hk).
Defined.

(** C6 at [top_k = 0]: the log holds the two passages of [demo_passages],
    the pattern matches the text of both, and the fallback returns one hit
    where [min (len P) top_k] is zero. *)
Lemma manual_grep_round_trip_fails_at_zero :
  reaches_log demo_runtime demo_fs demo_bridge "o" ("o" : regex demo_runtime)
    (hello_line ++ bye_line)%string
  /\ log_of demo_runtime (readlines (hello_line ++ bye_line)) demo_passages
  /\ Forall (fun p => re_search demo_runtime ("o" : regex demo_runtime) (fst p) = true)
       demo_passages
  /\ _manual_grep demo_runtime demo_fs demo_bridge "o" 0
     = Ok [Hit "hello world" (JObj []) 1%float]
  /\ Z.min (Z.of_nat (length demo_passages)) 0 = 0%Z.
Proof.
  split; [ exact (demo_reaches_log "o" eq_refl) | ].
  split; [ repeat constructor | ]. split; [ repeat constructor | ].
  split; reflexivity.
Qed.

(** The same log under positive bounds: one hit for [top_k = 1], both
    passages for [top_k = 5], and nothing for a pattern without a match. *)
Lemma manual_grep_round_trip_demo :
  _manual_grep demo_runtime demo_fs demo_bridge "o" 1 = Ok [hit_of ("hello world", JObj [])]
  /\ _manual_grep demo_runtime demo_fs demo_bridge "o" 5 = Ok (map hit_of demo_passages)
  /\ _manual_grep demo_runtime demo_fs demo_bridge "zzz" 5 = Ok [].
Proof. repeat split; reflexivity. Qed.

Lemma manual_grep_round_trip_witness :
  reaches_log demo_runtime demo_fs demo_bridge "o" ("o" : regex demo_runtime)
    (hello_line ++ bye_line)%string
  /\ log_of demo_runtime (readlines (hello_line ++ bye_line)) demo_passages
  /\ Forall (fun p => re_search demo_runtime ("o" : regex demo_runtime) (fst p) = true)
       demo_passages
  /\ (1 <= 1)%Z
  /\ exists entries,
       _manual_grep demo_runtime demo_fs demo_bridge "o" 1 = Ok entries
       /\ entries = map hit_of (firstn (Z.to_nat 1) demo_passages)
       /\ Z.of_nat (length entries) = Z.min (Z.of_nat (length demo_passages)) 1
       /\ Forall (fun e => score_of e = Some 1%float) entries.
Proof.
  assert (Hlog : log_of demo_runtime (readlines (hello_line ++ bye_line)) demo_passages)
    by (repeat constructor).
  assert (Hall : Forall (fun p => re_search demo_runtime ("o" : regex demo_runtime) (fst p)
                                  = true) demo_passages)
    by (repeat constructor).
  assert (Hk : (1 <= 1)%Z) by lia.
  split; [ exact (demo_reaches_log "o" eq_refl) | ].
  split; [ exact Hlog | ]. split; [ exact Hall | ]. split; [ exact Hk | ].
  exact (manual_grep_round_trip demo_runtime demo_fs demo_bridge "o" 1 "o"
           (hello_line ++ bye_line)%string demo_passages
           (demo_reaches_log "o" eq_refl) Hlog Hall Hk).
Defined.

Lemma manual_grep_no_match_empty_witness :
  reaches_log demo_runtime demo_fs demo_bridge "zzz" ("zzz" : regex demo_runtime)
    (hello_line ++ bye_line)%string
  /\ hits demo_runtime ("zzz" : regex demo_runtime) (readlines (hello_line ++ bye_line)) = []
  /\ _manual_grep demo_runtime demo_fs demo_bridge "zzz" 10 = Ok [].
Proof.
  split; [ exact (demo_reaches_log "zzz" eq_refl) | ]. split; [ reflexivity | ].
  exact (manual_grep_no_match_empty demo_runtime demo_fs demo_bridge "zzz" 10 "zzz"
           (hello_line ++ bye_line)%string (demo_reaches_log "zzz" eq_refl) eq_refl).
Defined.

(** ** Ingestion *)

(** Text-level facts about [strip], [in] and [relative_to]. *)

Lemma mem_In (x : string) (xs : list string) : Str.mem x xs = true <-> In x xs.
Proof.
  unfold Str.mem. rewrite existsb_exists. split.
  - intros (y & Hy & Heq). apply String.eqb_eq in Heq. subst. exact Hy.
  - intros Hx. exists x. split; [ exact Hx | apply String.eqb_refl ].
Qed.

Lemma rstrip_nonspace (c : ascii) (s : string) :
  Str.isspace c = false -> Str.nonempty (Str.rstrip (String c s)) = true.
Proof.
  intros Hc. cbn. destruct (Str.rstrip s); [ rewrite Hc | ]; reflexivity.
Qed.

(** [not content.strip()] holds exactly for blank text. *)
Lemma strip_blank (s : string) : Str.nonempty (Str.strip s) = negb (Str.blank s).
Proof.
  unfold Str.strip. induction s as [| c s IH]; [ reflexivity | ].
  cbn [Str.lstrip Str.blank]. destruct (Str.isspace c) eqn:Hc; cbn [andb].
  - exact IH.
  - apply rstrip_nonspace. exact Hc.
Qed.

Lemma excluded_spec (exclude_dirs : list string) (file_path : path) :
  excluded exclude_dirs file_path = false <->
  (forall exc, In exc exclude_dirs -> ~ In exc file_path).
Proof.
  unfold excluded. split.
  - intros Hno exc Hexc Hin.
    assert (Hyes : existsb (fun e => Str.mem e file_path) exclude_dirs = true).
    { apply existsb_exists. exists exc. split; [ exact Hexc | apply mem_In; exact Hin ]. }
    congruence.
  - intros Hno. destruct (existsb _ exclude_dirs) eqn:Hex; [ | reflexivity ].
    apply existsb_exists in Hex as (exc & Hexc & Hin).
    apply mem_In in Hin. destruct (Hno exc Hexc Hin).
Qed.


Section IngestFacts.

Context (rt : Runtime) (lib : Library) (fs : filesystem).


(** One round of the loop leaves the builder alone or adds one passage of
    the visited file. *)
Lemma visit_builder (root : path) (extensions exclude_dirs : list string)
    (st : walk_state) (file_path : path) :
  builder (visit rt lib fs root extensions exclude_dirs st file_path) = builder st
  \/ exists p,
       builder (visit rt lib fs root extensions exclude_dirs st file_path)
       = builder st ++ [p]
       /\ ingested_from fs root extensions exclude_dirs file_path p.
Proof.
  unfold visit.
  destruct (is_file fs file_path) eqn:Hfile; cbn [negb]; [ | left; reflexivity ].
  destruct (excluded exclude_dirs file_path) eqn:Hexc; [ left; reflexivity | ].
  destruct (Str.mem (suffix file_path) extensions) eqn:Hext; cbn [negb];
    [ | left; reflexivity ].
  unfold ingest_file, bind.
  destruct (read_text fs file_path) as [content |] eqn:Hread; [ | left; reflexivity ].
  rewrite strip_blank, negb_involutive.
  destruct (Str.blank content) eqn:Hblank; [ left; reflexivity | ].
  destruct (FS.stat fs file_path) as [s |] eqn:Hstat; [ | left; reflexivity ].
  destruct (relative_to file_path root) as [rel |] eqn:Hrel; [ | left; reflexivity ].
  destruct (add_text lib (builder st) content _) eqn:Hadd; [ left; reflexivity | ].
  right. eexists. split; [ reflexivity | ].
  split; [ exact Hfile | ]. split; [ apply excluded_spec; exact Hexc | ].
  split; [ apply mem_In; exact Hext | ].
  exists content, s, rel. repeat split; auto.
  intros Hempty. pose proof (strip_blank content) as Hs.
  rewrite Hempty, Hblank in Hs. discriminate.
Qed.

Lemma walk_builder (root : path) (extensions exclude_dirs : list string)
    (files : list path) :
  forall st p,
    In p (builder (walk rt lib fs root extensions exclude_dirs files st)) ->
    In p (builder st)
    \/ exists file_path, In file_path files
                         /\ ingested_from fs root extensions exclude_dirs file_path p.
Proof.
  unfold walk. induction files as [| f files IH]; intros st p Hin; cbn in Hin;
    [ left; exact Hin | ].
  destruct (IH _ _ Hin) as [Hold | (g & Hg & Hfrom)].
  - destruct (visit_builder root extensions exclude_dirs st f) as [Heq | (q & Heq & Hq)];
      rewrite Heq in Hold.
    + left. exact Hold.
    + apply in_app_or in Hold as [Hold | [<- | []]]; [ left; exact Hold | ].
      right. exists f. split; [ left; reflexivity | exact Hq ].
  - right. exists g. split; [ right; exact Hg | exact Hfrom ].
Qed.

(** C8: every passage that [index_codebase] hands to the builder comes from
    a file below the root none of whose path components is in
    [exclude_dirs], whose suffix is in [extensions], and whose decoded
    content is neither empty nor whitespace only. *)
Theorem index_codebase_respects_filters (self : LEANNBridge) (root_path : string)
    (extensions exclude_dirs : option (list string)) (p : passage) :
  In p (fst (index_codebase rt lib fs self root_path extensions exclude_dirs)) ->
  exists file_path content,
    In file_path (rglob fs (Path root_path))
    /\ read_text fs file_path = Ok content
    /\ fst p = content
    /\ (forall exc, In exc (effective_exclude_dirs exclude_dirs) -> ~ In exc file_path)
    /\ In (suffix file_path) (effective_extensions extensions)
    /\ Str.strip content <> EmptyString
    /\ Str.blank content = false
    /\ ingested_from fs (Path root_path) (effective_extensions extensions)
         (effective_exclude_dirs exclude_dirs) file_path p.
Proof.
  unfold index_codebase. fold (effective_extensions extensions).
  fold (effective_exclude_dirs exclude_dirs).
  destruct (negb (path_exists fs (Path root_path))); [ intros [] | ].
  intros Hin.
  assert (Hin' : In p (builder (walk rt lib fs (Path root_path)
                                  (effective_extensions extensions)
                                  (effective_exclude_dirs exclude_dirs)
                                  (rglob fs (Path root_path)) fresh_walk))).
  { destruct (build_index lib _ _); exact Hin. }
  apply walk_builder in Hin' as [[] | (f & Hf & Hfrom)].
  pose proof Hfrom as (_ & Hexc & Hext & content & st & rel & Hread & Hblank & Hstrip & _ & _ & ->).
  exists f, content. repeat split; auto; apply Hfrom.
Qed.








End IngestFacts.

(** *** Ingestion on a concrete tree *)

(** The walk of [/proj]: two passages, and one warning for the file that
    cannot be read, after which the walk went on to [z.txt]. *)
Lemma index_codebase_project :
  index_codebase demo_runtime accepting_library project_fs demo_bridge "/proj" None None
  = ([a_py_passage; z_txt_passage],
     IndexSuccess 2 2 ["Error indexing /proj/locked.py: built-in error"] "store/idx").
Proof. reflexivity. Qed.

Lemma index_codebase_respects_filters_witness :
  In a_py_passage
    (fst (index_codebase demo_runtime accepting_library project_fs demo_bridge
            "/proj" None None))
  /\ exists file_path content,
       In file_path (rglob project_fs (Path "/proj"))
       /\ read_text project_fs file_path = Ok content
       /\ fst a_py_passage = content
       /\ (forall exc, In exc (effective_exclude_dirs None) -> ~ In exc file_path)
       /\ In (suffix file_path) (effective_extensions None)
       /\ Str.strip content <> EmptyString
       /\ Str.blank content = false
       /\ ingested_from project_fs (Path "/proj") (effective_extensions None)
            (effective_exclude_dirs None) file_path a_py_passage.
Proof.
  assert (Hin : In a_py_passage
                  (fst (index_codebase demo_runtime accepting_library project_fs
                          demo_bridge "/proj" None None)))
    by (left; reflexivity).
  split; [ exact Hin | ].
  exact (index_codebase_respects_filters demo_runtime accepting_library project_fs
           demo_bridge "/proj" None None a_py_passage Hin).
Defined.



(** ** More on the exact-match fallback *)

Section GrepPaths.

Context (rt : Runtime) (fs : filesystem).



End GrepPaths.


Section GrepLines.

Context (rt : Runtime) (fs : filesystem).

Lemma hits_app (pattern : regex rt) (before after : list string) :
  hits rt pattern (before ++ after) = hits rt pattern before ++ hits rt pattern after.
Proof. unfold hits. apply flat_map_app. Qed.

(** A line gives no hit when it cannot be decoded or decodes to something
    that is not a dictionary. *)
Lemma match_line_unusable (pattern : regex rt) (line : string) :
  (exists msg, json_loads rt line = inl msg)
  \/ (exists v, json_loads rt line = inr v /\ is_dict v = false)
  \/ match_line rt pattern line = Ok None ->
  hits rt pattern [line] = [].
Proof.
  unfold hits. cbn [flat_map]. rewrite app_nil_r. unfold match_line, loads.
  intros [[msg Hbad] | [(v & Hv & Hdict) | Hnone]].
  - rewrite Hbad. reflexivity.
  - rewrite Hv. destruct v; try discriminate; reflexivity.
  - unfold match_line, loads in Hnone. rewrite Hnone. reflexivity.
Qed.

(** X5: A line that cannot be decoded, that does not hold a dictionary or whose
    text does not match is skipped: the loop returns what it returns
    without that line. *)
Theorem scan_skips_unusable_line (pattern : regex rt) (top_k : Z)
    (before after : list string) (line : string) (results : list entry) :
  (exists msg, json_loads rt line = inl msg)
  \/ (exists v, json_loads rt line = inr v /\ is_dict v = false)
  \/ match_line rt pattern line = Ok None ->
  scan rt pattern top_k (before ++ line :: after) results
  = scan rt pattern top_k (before ++ after) results.
Proof.
  intros Hline. rewrite !scan_firstn.
  change (line :: after) with ([line] ++ after).
  rewrite !hits_app, (match_line_unusable pattern line Hline). reflexivity.
Qed.

(** X6: What the fallback returns from a log it can read is a prefix of the
    log's hits, in the order of the log, with at most [max 1 top_k]
    entries; it is empty only when the log has no hit. *)
Theorem manual_grep_bounded_prefix (self : LEANNBridge) (query : string) (top_k : Z)
    (pattern : regex rt) (log : string) :
  reaches_log rt fs self query pattern log ->
  exists entries,
    _manual_grep rt fs self query top_k = Ok entries
    /\ entries = firstn (length entries) (hits rt pattern (readlines log))
    /\ (Z.of_nat (length entries) <= Z.max 1 top_k)%Z
    /\ (entries = [] <-> hits rt pattern (readlines log) = [])
    /\ forallb is_hit entries = true.
Proof.
  intros Hreach.
  rewrite (manual_grep_scans rt fs self query top_k pattern log Hreach).
  rewrite scan_firstn. cbn [app length].
  replace (top_k - Z.of_nat 0)%Z with top_k by lia.
  set (n := Z.to_nat (Z.max 1 top_k)). set (hs := hits rt pattern (readlines log)).
  exists (firstn n hs). split; [ reflexivity | ].
  split; [ | split; [ | split ] ].
  - rewrite length_firstn.
    destruct (Nat.le_gt_cases n (length hs)) as [Hle | Hgt].
    + rewrite Nat.min_l by exact Hle. reflexivity.
    + rewrite Nat.min_r by lia. rewrite firstn_all, firstn_all2 by lia. reflexivity.
  - rewrite length_firstn. subst n. lia.
  - assert (Hn : n = S (pred n)) by (subst n; lia).
    split.
    + intros Hempty. destruct hs as [| h hs']; [ reflexivity | ].
      rewrite Hn in Hempty. discriminate.
    + intros ->. apply firstn_nil.
  - pose proof (scan_hits rt pattern top_k (readlines log) [] eq_refl) as Hall.
    rewrite scan_firstn in Hall. cbn [app length] in Hall.
    replace (top_k - Z.of_nat 0)%Z with top_k in Hall by lia. exact Hall.
Qed.

(** X7: The first source of type ["jsonl"] decides: when it has no path, or an
    empty one, the fallback reports that no jsonl source was found, even if
    a later source names a log. *)
Theorem manual_grep_first_jsonl_source_decides (self : LEANNBridge) (query : string)
    (top_k : Z) (meta_text : string) (kvs : list (string * json))
    (skipped : list json) (source : list (string * json)) (rest : list json) :
  read_text fs (locate_meta fs self) = Ok meta_text ->
  json_loads rt meta_text = inr (JObj kvs) ->
  Py.lookup "passage_sources" kvs = Some (JArr (skipped ++ JObj source :: rest)) ->
  Forall (fun src => exists d, src = JObj d
                               /\ eq_str (dict_get d "type" JNull) "jsonl" = false)
    skipped ->
  dict_get source "type" JNull = JStr "jsonl" ->
  truthy (dict_get source "path" JNull) = false ->
  _manual_grep rt fs self query top_k
  = Ok [ErrorEntry "Grep failed: No jsonl passage source found in metadata"].
Proof.
  intros Hmeta Hjson Hsrc Hskip Hty Hpath.
  assert (Hfound : find_passage_path (JObj kvs) = Ok (dict_get source "path" JNull)).
  { cbn. rewrite Hsrc. cbn. clear Hsrc.
    induction Hskip as [| src skipped (d & -> & Hother) _ IH]; cbn.
    - rewrite Hty. reflexivity.
    - rewrite Hother. exact IH. }
  unfold _manual_grep, manual_grep_body, loads.
  rewrite (read_text_exists fs _ _ Hmeta), Hmeta. cbn [negb bind].
  rewrite Hjson. cbn [bind]. rewrite Hfound. cbn [bind]. rewrite Hpath. reflexivity.
Qed.

End GrepLines.

Section GrepSemantics.

Context (rt : Runtime) (fs : filesystem).

Lemma record_carries_chosen (kvs : list (string * json)) (p : passage) :
  record_carries kvs p -> chosen_text kvs = JStr (fst p).
Proof.
  unfold record_carries, chosen_text, py_or.
  intros [[[Htext Hne] | [Hfalsy Hcontent]] _].
  - rewrite Htext. destruct (fst p); [ congruence | reflexivity ].
  - rewrite Hfalsy, Hcontent. destruct (fst p); reflexivity.
Qed.

(** What one line of the log contributes. *)
Lemma hits_of_slot (pattern : regex rt) (line : string) (slot : option passage) :
  match slot with
  | Some p => exists kvs, json_loads rt line = inr (JObj kvs) /\ record_carries kvs p
  | None => unusable_line rt line
  end ->
  hits rt pattern [line]
  = map hit_of (filter (fun p => re_search rt pattern (fst p))
                  (match slot with Some p => [p] | None => [] end)).
Proof.
  unfold hits. cbn [flat_map]. rewrite app_nil_r. unfold match_line, loads.
  destruct slot as [p |].
  - intros (kvs & Hline & Hcarries). rewrite Hline. cbn [bind py_get].
    pose proof (record_carries_chosen kvs p Hcarries) as Hchosen.
    unfold chosen_text in Hchosen. rewrite Hchosen.
    destruct Hcarries as [_ Hmeta]. cbn [filter].
    destruct (re_search rt pattern (fst p)); [ | reflexivity ].
    cbn. rewrite Hmeta. reflexivity.
  - intros [[msg Hbad] | [(v & Hv & Hdict) | (kvs & Hline & Hstr)]].
    + rewrite Hbad. reflexivity.
    + rewrite Hv. destruct v; try discriminate; reflexivity.
    + rewrite Hline. cbn [bind py_get]. unfold chosen_text in Hstr.
      destruct (py_or _ _); try discriminate; reflexivity.
Qed.

Lemma hits_of_slots (pattern : regex rt) (lines : list string)
    (slots : list (option passage)) :
  log_holds rt lines slots ->
  hits rt pattern lines
  = map hit_of (filter (fun p => re_search rt pattern (fst p)) (passages_of slots)).
Proof.
  intros Hlog. induction Hlog as [| line slot lines slots Hline _ IH]; [ reflexivity | ].
  change (line :: lines) with ([line] ++ lines).
  rewrite (hits_app rt), IH, (hits_of_slot pattern line slot Hline).
  unfold passages_of. cbn [flat_map]. rewrite filter_app, map_app. reflexivity.
Qed.

(** X8: The fallback is a grep over the log: for a positive bound it returns,
    in the order of the log and with score 1.0, the first [top_k] passages
    whose text the pattern matches.  A passage may carry its text under
    either field name; lines that are not JSON, not dictionaries or without
    a string to match are passed over. *)
Theorem manual_grep_is_grep (self : LEANNBridge) (query : string) (top_k : Z)
    (pattern : regex rt) (log : string) (slots : list (option passage)) :
  reaches_log rt fs self query pattern log ->
  log_holds rt (readlines log) slots ->
  (1 <= top_k)%Z ->
  _manual_grep rt fs self query top_k
  = Ok (map hit_of
          (firstn (Z.to_nat top_k)
             (filter (fun p => re_search rt pattern (fst p)) (passages_of slots)))).
Proof.
  intros Hreach Hlog Hk.
  rewrite (manual_grep_scans rt fs self query top_k pattern log Hreach).
  rewrite scan_firstn, (hits_of_slots pattern _ slots Hlog). cbn [app length].
  replace (Z.to_nat (Z.max 1 (top_k - Z.of_nat 0))) with (Z.to_nat top_k) by lia.
  rewrite firstn_map. reflexivity.
Qed.

End GrepSemantics.

(** *** The second index *)

Lemma mixed_reaches_log (query : string) :
  String.eqb query "(" = false ->
  reaches_log mixed_runtime mixed_fs (__init__ "store/mix") query query mixed_log.
Proof.
  intros Hquery. exists mixed_meta_text, mixed_meta_value, "mix.jsonl".
  split; [ reflexivity | ]. split; [ reflexivity | ]. split; [ reflexivity | ].
  split; [ discriminate | ]. split; [ | reflexivity ].
  cbn. rewrite Hquery. reflexivity.
Qed.

Lemma mixed_log_holds :
  log_holds mixed_runtime (readlines mixed_log)
    [Some ("alpha one", JObj [("k", JInt 1)]); None; None; Some ("alpha two", JObj [])].
Proof.
  constructor; [ | constructor; [ | constructor; [ | constructor; [ | constructor ] ] ] ].
  - eexists. split; [ reflexivity | ].
    split; [ right; split; reflexivity | reflexivity ].
  - left. eexists. reflexivity.
  - right. right. eexists. split; reflexivity.
  - eexists. split; [ reflexivity | ].
    split; [ left; split; [ reflexivity | discriminate ] | reflexivity ].
Qed.

Lemma scan_skips_unusable_line_witness :
  ((exists msg, json_loads mixed_runtime garbage_line = inl msg)
   \/ (exists v, json_loads mixed_runtime garbage_line = inr v /\ is_dict v = false)
   \/ match_line mixed_runtime ("alpha" : regex mixed_runtime) garbage_line = Ok None)
  /\ scan mixed_runtime ("alpha" : regex mixed_runtime) 10
       ([content_line] ++ garbage_line :: [bare_line]) []
     = scan mixed_runtime ("alpha" : regex mixed_runtime) 10
         ([content_line] ++ [bare_line]) [].
Proof.
  assert (Hbad : (exists msg, json_loads mixed_runtime garbage_line = inl msg)
                 \/ (exists v, json_loads mixed_runtime garbage_line = inr v
                               /\ is_dict v = false)
                 \/ match_line mixed_runtime ("alpha" : regex mixed_runtime) garbage_line
                    = Ok None)
    by (left; eexists; reflexivity).
  split; [ exact Hbad | ].
  exact (scan_skips_unusable_line mixed_runtime ("alpha" : regex mixed_runtime) 10
           [content_line] [bare_line] garbage_line [] Hbad).
Defined.

Lemma manual_grep_bounded_prefix_witness :
  reaches_log mixed_runtime mixed_fs (__init__ "store/mix") "alpha"
    ("alpha" : regex mixed_runtime) mixed_log
  /\ exists entries,
       _manual_grep mixed_runtime mixed_fs (__init__ "store/mix") "alpha" 1 = Ok entries
       /\ entries = firstn (length entries)
                      (hits mixed_runtime ("alpha" : regex mixed_runtime)
                         (readlines mixed_log))
       /\ (Z.of_nat (length entries) <= Z.max 1 1)%Z
       /\ (entries = []
           <-> hits mixed_runtime ("alpha" : regex mixed_runtime) (readlines mixed_log) = [])
       /\ forallb is_hit entries = true.
Proof.
  split; [ exact (mixed_reaches_log "alpha" eq_refl) | ].
  exact (manual_grep_bounded_prefix mixed_runtime mixed_fs (__init__ "store/mix") "alpha" 1
           "alpha" mixed_log (mixed_reaches_log "alpha" eq_refl)).
Defined.

Lemma manual_grep_first_jsonl_source_decides_witness :
  read_text mixed_fs (locate_meta mixed_fs (__init__ "store/odd")) = Ok pathless_meta_text
  /\ json_loads mixed_runtime pathless_meta_text = inr pathless_meta_value
  /\ truthy (dict_get [("type", JStr "jsonl")] "path" JNull) = false
  /\ _manual_grep mixed_runtime mixed_fs (__init__ "store/odd") "alpha" 10
     = Ok [ErrorEntry "Grep failed: No jsonl passage source found in metadata"].
Proof.
  split; [ reflexivity | ]. split; [ reflexivity | ]. split; [ reflexivity | ].
  exact (manual_grep_first_jsonl_source_decides mixed_runtime mixed_fs (__init__ "store/odd")
           "alpha" 10 pathless_meta_text
           [("passage_sources",
             JArr [JObj [("type", JStr "jsonl")];
                   JObj [("type", JStr "jsonl"); ("path", JStr "mix.jsonl")]])]
           [] [("type", JStr "jsonl")]
           [JObj [("type", JStr "jsonl"); ("path", JStr "mix.jsonl")]]
           eq_refl eq_refl eq_refl (Forall_nil _) eq_refl eq_refl).
Defined.

Lemma manual_grep_is_grep_witness :
  reaches_log mixed_runtime mixed_fs (__init__ "store/mix") "two"
    ("two" : regex mixed_runtime) mixed_log
  /\ log_holds mixed_runtime (readlines mixed_log)
       [Some ("alpha one", JObj [("k", JInt 1)]); None; None; Some ("alpha two", JObj [])]
  /\ (1 <= 3)%Z
  /\ _manual_grep mixed_runtime mixed_fs (__init__ "store/mix") "two" 3
     = Ok [Hit "alpha two" (JObj []) 1%float].
Proof.
  assert (Hk : (1 <= 3)%Z) by lia.
  split; [ exact (mixed_reaches_log "two" eq_refl) | ].
  split; [ exact mixed_log_holds | ]. split; [ exact Hk | ].
  exact (manual_grep_is_grep mixed_runtime mixed_fs (__init__ "store/mix") "two" 3 "two"
           mixed_log _ (mixed_reaches_log "two" eq_refl) mixed_log_holds Hk).
Defined.

(** ** More on the query planner *)

Section SearchCalls.

Context (rt : Runtime) (lib : Library).



End SearchCalls.

(** ** More on ingestion *)

Section WalkAccounts.

Context (rt : Runtime) (lib : Library) (fs : filesystem).

(** What one round of the loop does to the four results: nothing for a path
    that is filtered out or blank, one warning, or one passage and a step of
    both counters. *)
Lemma visit_cases (root : path) (extensions exclude_dirs : list string)
    (st : walk_state) (file_path : path) :
  let st' := visit rt lib fs root extensions exclude_dirs st file_path in
  (eligible fs extensions exclude_dirs file_path = false /\ st' = st)
  \/ (eligible fs extensions exclude_dirs file_path = true
      /\ blank_file fs file_path = true /\ st' = st)
  \/ (eligible fs extensions exclude_dirs file_path = true
      /\ blank_file fs file_path = false
      /\ exists e,
           st' = {| indexed_files := indexed_files st;
                    indexed_chunks := indexed_chunks st;
                    errors := errors st ++ [("Error indexing " ++ str file_path ++ ": "
                                             ++ str_exn rt e)%string];
                    builder := builder st |})
  \/ (eligible fs extensions exclude_dirs file_path = true
      /\ blank_file fs file_path = false
      /\ exists p,
           st' = {| indexed_files := indexed_files st + 1;
                    indexed_chunks := indexed_chunks st + 1;
                    errors := errors st;
                    builder := builder st ++ [p] |}).
Proof.
  unfold visit, eligible, blank_file. cbv zeta.
  destruct (is_file fs file_path); cbn [negb andb]; [ | left; auto ].
  destruct (excluded exclude_dirs file_path); cbn [negb andb]; [ left; auto | ].
  destruct (Str.mem (suffix file_path) extensions); cbn [negb]; [ | left; auto ].
  right. unfold ingest_file, bind.
  destruct (read_text fs file_path) as [content | e]; [ | right; left; eauto ].
  rewrite strip_blank, negb_involutive.
  destruct (Str.blank content); [ left; auto | right ].
  destruct (FS.stat fs file_path) as [s | e]; [ | left; eauto ].
  destruct (relative_to file_path root) as [rel | e]; [ | left; eauto ].
  destruct (add_text lib (builder st) content _) as [msg |].
  - left. repeat split. exists (Raised msg). reflexivity.
  - right. eauto.
Qed.

(** Both counters stay equal to the number of passages in the builder. *)
Lemma walk_counters (root : path) (extensions exclude_dirs : list string)
    (files : list path) :
  forall st,
    indexed_files st = Z.of_nat (length (builder st)) ->
    indexed_chunks st = indexed_files st ->
    let st' := walk rt lib fs root extensions exclude_dirs files st in
    indexed_files st' = Z.of_nat (length (builder st'))
    /\ indexed_chunks st' = indexed_files st'.
Proof.
  unfold walk. induction files as [| f files IH]; intros st Hfiles Hchunks; cbn;
    [ auto | ].
  apply IH;
    destruct (visit_cases root extensions exclude_dirs st f)
      as [[_ ->] | [(_ & _ & ->) | [(_ & _ & e & ->) | (_ & _ & p & ->)]]];
    cbn; try assumption; try lia.
  rewrite length_app. cbn. lia.
Qed.

(** Every eligible file that is not blank leaves exactly one trace, a passage
    or a warning. *)
Lemma walk_accounts (root : path) (extensions exclude_dirs : list string)
    (files : list path) :
  forall st,
    let st' := walk rt lib fs root extensions exclude_dirs files st in
    (length (builder st') + length (errors st')
     = length (builder st) + length (errors st)
       + count (fun f => eligible fs extensions exclude_dirs f
                         && negb (blank_file fs f)) files)%nat.
Proof.
  unfold walk, count. induction files as [| f files IH]; intros st; cbn [fold_left filter].
  - cbn. lia.
  - cbv zeta in IH. rewrite IH.
    destruct (visit_cases root extensions exclude_dirs st f)
      as [[He ->] | [(He & Hb & ->) | [(He & Hb & e & ->) | (He & Hb & p & ->)]]];
      rewrite He, ?Hb; cbn; rewrite ?length_app; cbn; lia.
Qed.

(** Where a warning comes from. *)
Lemma walk_errors (root : path) (extensions exclude_dirs : list string)
    (files : list path) :
  forall st msg,
    In msg (errors (walk rt lib fs root extensions exclude_dirs files st)) ->
    In msg (errors st)
    \/ exists f e,
         In f files
         /\ eligible fs extensions exclude_dirs f = true
         /\ blank_file fs f = false
         /\ msg = ("Error indexing " ++ str f ++ ": " ++ str_exn rt e)%string.
Proof.
  unfold walk. induction files as [| f files IH]; intros st msg Hin; cbn in Hin;
    [ left; exact Hin | ].
  destruct (IH _ _ Hin) as [Hold | (g & e & Hg & Hrest)];
    [ | right; exists g, e; split; [ right; exact Hg | exact Hrest ] ].
  destruct (visit_cases root extensions exclude_dirs st f)
    as [[_ Heq] | [(_ & _ & Heq) | [(He & Hb & e & Heq) | (_ & _ & p & Heq)]]];
    cbv zeta in Heq; rewrite Heq in Hold; cbn in Hold; try (left; exact Hold).
  apply in_app_or in Hold as [Hold | [<- | []]]; [ left; exact Hold | ].
  right. exists f, e. split; [ left; reflexivity | auto ].
Qed.


(** X12: On success, the eligible files below the root are accounted for: each is
    a passage, a warning, or a blank file that was skipped. *)
Theorem index_codebase_accounts_for_files (self : LEANNBridge) (root_path : string)
    (extensions exclude_dirs : option (list string))
    (files chunks : Z) (warnings : list string) (index : string) :
  snd (index_codebase rt lib fs self root_path extensions exclude_dirs)
    = IndexSuccess files chunks warnings index ->
  let exts := effective_extensions extensions in
  let excl := effective_exclude_dirs exclude_dirs in
  let visited := rglob fs (Path root_path) in
  (files + Z.of_nat (length warnings)
   + Z.of_nat (count (fun f => eligible fs exts excl f && blank_file fs f) visited)
   = Z.of_nat (count (eligible fs exts excl) visited))%Z.
Proof.
  intros Hout exts excl visited.
  revert Hout. unfold index_codebase.
  fold (effective_extensions extensions). fold (effective_exclude_dirs exclude_dirs).
  fold exts excl visited.
  destruct (negb (path_exists fs (Path root_path))); [ discriminate | ].
  pose proof (walk_accounts (Path root_path) exts excl visited fresh_walk) as Hacc.
  pose proof (walk_counters (Path root_path) exts excl visited fresh_walk eq_refl eq_refl)
    as [Hfiles _].
  cbv zeta in Hacc, Hfiles.
  set (st := walk rt lib fs (Path root_path) exts excl visited fresh_walk) in *.
  destruct (build_index lib (builder st) _); [ discriminate | ].
  cbn [fst snd]. intros [= <- _ <- _]. cbn in Hacc.
  assert (Hsplit : (count (eligible fs exts excl) visited
                    = count (fun f => eligible fs exts excl f && negb (blank_file fs f)) visited
                      + count (fun f => eligible fs exts excl f && blank_file fs f) visited)%nat).
  { unfold count. clear. induction visited as [| f l IH]; [ reflexivity | ].
    cbn [filter]. destruct (eligible fs exts excl f), (blank_file fs f); cbn; lia. }
  lia.
Qed.

(** X13: On success, every warning reported names a file below the root that
    passed the filters and was not blank: filtered files are never opened,
    and so never warned about. *)
Theorem index_codebase_warnings_from_eligible (self : LEANNBridge) (root_path : string)
    (extensions exclude_dirs : option (list string))
    (files chunks : Z) (warnings : list string) (index : string) (msg : string) :
  snd (index_codebase rt lib fs self root_path extensions exclude_dirs)
    = IndexSuccess files chunks warnings index ->
  In msg warnings ->
  exists f e,
    In f (rglob fs (Path root_path))
    /\ eligible fs (effective_extensions extensions) (effective_exclude_dirs exclude_dirs) f
       = true
    /\ blank_file fs f = false
    /\ msg = ("Error indexing " ++ str f ++ ": " ++ str_exn rt e)%string.
Proof.
  unfold index_codebase.
  fold (effective_extensions extensions). fold (effective_exclude_dirs exclude_dirs).
  destruct (negb (path_exists fs (Path root_path))); [ discriminate | ].
  set (st := walk rt lib fs (Path root_path) (effective_extensions extensions)
               (effective_exclude_dirs exclude_dirs) (rglob fs (Path root_path)) fresh_walk).
  destruct (build_index lib (builder st) _); [ discriminate | ].
  cbn [snd]. intros [= _ _ <- _] Hin.
  apply walk_errors in Hin as [[] | Hfrom]. exact Hfrom.
Qed.

End WalkAccounts.

(** ** Paths written out and read back *)









Section MetadataResolves.

Context (rt : Runtime) (lib : Library) (fs : filesystem).


End MetadataResolves.




Lemma index_codebase_accounts_for_files_witness :
  snd (index_codebase demo_runtime accepting_library project_fs demo_bridge "/proj" None None)
    = IndexSuccess 2 2 ["Error indexing /proj/locked.py: built-in error"] "store/idx"
  /\ count (eligible project_fs (effective_extensions None) (effective_exclude_dirs None))
       (rglob project_fs (Path "/proj")) = 4%nat
  /\ (2 + Z.of_nat (length ["Error indexing /proj/locked.py: built-in error"])
      + Z.of_nat (count (fun f => eligible project_fs (effective_extensions None)
                                    (effective_exclude_dirs None) f
                                  && blank_file project_fs f)
                    (rglob project_fs (Path "/proj")))
      = Z.of_nat (count (eligible project_fs (effective_extensions None)
                           (effective_exclude_dirs None))
                    (rglob project_fs (Path "/proj"))))%Z.
Proof.
  split; [ reflexivity | ]. split; [ reflexivity | ].
  exact (index_codebase_accounts_for_files demo_runtime accepting_library project_fs
           demo_bridge "/proj" None None 2 2
           ["Error indexing /proj/locked.py: built-in error"] "store/idx" eq_refl).
Defined.

Lemma index_codebase_warnings_from_eligible_witness :
  snd (index_codebase demo_runtime accepting_library project_fs demo_bridge "/proj" None None)
    = IndexSuccess 2 2 ["Error indexing /proj/locked.py: built-in error"] "store/idx"
  /\ In "Error indexing /proj/locked.py: built-in error"
       ["Error indexing /proj/locked.py: built-in error"]
  /\ exists f e,
       In f (rglob project_fs (Path "/proj"))
       /\ eligible project_fs (effective_extensions None) (effective_exclude_dirs None) f
          = true
       /\ blank_file project_fs f = false
       /\ "Error indexing /proj/locked.py: built-in error"
          = ("Error indexing " ++ str f ++ ": " ++ str_exn demo_runtime e)%string.
Proof.
  assert (Hin : In "Error indexing /proj/locked.py: built-in error"
                  ["Error indexing /proj/locked.py: built-in error"])
    by (left; reflexivity).
  split; [ reflexivity | ]. split; [ exact Hin | ].
  exact (index_codebase_warnings_from_eligible demo_runtime accepting_library project_fs
           demo_bridge "/proj" None None 2 2
           ["Error indexing /proj/locked.py: built-in error"] "store/idx"
           "Error indexing /proj/locked.py: built-in error" eq_refl Hin).
Defined.

(** ** Index statistics *)

Lemma path_eqb_eq (p q : path) : PurePath.eqb p q = true <-> p = q.
Proof.
  revert q. induction p as [| a p IH]; intros [| b q]; cbn; split; try congruence;
    try discriminate.
  - intros H. apply andb_prop in H as [Hab Hpq].
    apply String.eqb_eq in Hab. apply IH in Hpq. congruence.
  - intros [= -> ->]. rewrite String.eqb_refl. cbn. apply IH. reflexivity.
Qed.

Lemma lookup_app (fs more : filesystem) (p : path) :
  FS.lookup (fs ++ more) p
  = match FS.lookup fs p with
    | Some n => Some n
    | None => FS.lookup more p
    end.
Proof.
  induction fs as [| [q n] fs IH]; cbn; [ reflexivity | ].
  destruct (PurePath.eqb p q); [ reflexivity | exact IH ].
Qed.

Lemma lookup_listed (fs : filesystem) (p : path) :
  In p (map fst fs) -> FS.lookup fs p <> None.
Proof.
  induction fs as [| [q n] fs IH]; cbn; [ intros [] | ].
  intros [-> | Hin].
  - rewrite (proj2 (path_eqb_eq p p) eq_refl). discriminate.
  - destruct (PurePath.eqb p q); [ discriminate | exact (IH Hin) ].
Qed.

Lemma sum_Z_app (l1 l2 : list Z) : sum_Z (l1 ++ l2) = (sum_Z l1 + sum_Z l2)%Z.
Proof.
  unfold sum_Z. induction l1 as [| z l1 IH]; cbn [app fold_right]; [ lia | ].
  rewrite IH. lia.
Qed.

(** Two file systems that agree on the paths of a list measure it alike. *)
Lemma sizes_agree (fs fs' : filesystem) (l : list path) :
  (forall q, In q l -> FS.lookup fs' q = FS.lookup fs q) ->
  map (size_of fs') (filter (is_file fs') l) = map (size_of fs) (filter (is_file fs) l).
Proof.
  induction l as [| q l IH]; intros Hagree; [ reflexivity | ].
  assert (Hq : FS.lookup fs' q = FS.lookup fs q) by (apply Hagree; left; reflexivity).
  assert (Hl : forall x, In x l -> FS.lookup fs' x = FS.lookup fs x)
    by (intros x Hx; apply Hagree; right; exact Hx).
  assert (Hfile : is_file fs' q = is_file fs q) by (unfold is_file; rewrite Hq; reflexivity).
  assert (Hsize : size_of fs' q = size_of fs q) by (unfold size_of; rewrite Hq; reflexivity).
  cbn [filter]. rewrite Hfile.
  destruct (is_file fs q); cbn [map]; rewrite (IH Hl), ?Hsize; reflexivity.
Qed.

Lemma is_file_stat (fs : filesystem) (f : path) :
  is_file fs f = true ->
  exists st, FS.stat fs f = Ok st /\ size_of fs f = st_size st.
Proof.
  unfold is_file, FS.stat, size_of.
  destruct (FS.lookup fs f) as [[| text st] |]; try discriminate. eauto.
Qed.

(** Summing never fails: a path that is a regular file can be stat-ed. *)
Lemma sum_sizes_total (fs : filesystem) (files : list path) :
  forall total,
    sum_sizes fs files total
    = Ok (total + sum_Z (map (size_of fs) (filter (is_file fs) files)))%Z.
Proof.
  induction files as [| f files IH]; intros total; cbn [sum_sizes filter].
  - cbn. f_equal. lia.
  - destruct (is_file fs f) eqn:Hfile; [ | apply IH ].
    destruct (is_file_stat fs f Hfile) as (st & Hstat & Hsize).
    rewrite Hstat. cbn [bind]. rewrite IH. cbn [map]. rewrite Hsize.
    unfold sum_Z. cbn [fold_right]. f_equal. lia.
Qed.

Section StatsFacts.

Context (rt : Runtime) (fs : filesystem) (megabytes : Z -> float).


(** X16: A new regular file stored below the index directory adds its size to
    the bytes reported, and changes nothing else. *)
Theorem get_index_stats_counts_new_file (self : LEANNBridge) (file_path : path)
    (text : option string) (st : stat_result) :
  is_dir fs (index_path self) = true ->
  FS.lookup fs file_path = None ->
  below (index_path self) file_path = true ->
  let fs' := fs ++ [(file_path, RegularFile text st)] in
  bytes_below fs' (index_path self) = (bytes_below fs (index_path self) + st_size st)%Z
  /\ get_index_stats rt fs' megabytes self
     = Ok (Stats (str (index_path self)) (bytes_below fs (index_path self) + st_size st)
             (megabytes (bytes_below fs (index_path self) + st_size st)) true).
Proof.
  intros Hdir Hfresh Hbelow fs'.
  assert (Hkeep : forall q, In q (map fst fs) -> FS.lookup fs' q = FS.lookup fs q).
  { intros q Hq. unfold fs'. rewrite lookup_app.
    destruct (FS.lookup fs q) eqn:E; [ reflexivity | ].
    destruct (lookup_listed fs q Hq E). }
  assert (Hnew : FS.lookup fs' file_path = Some (RegularFile text st)).
  { unfold fs'. rewrite lookup_app, Hfresh. cbn.
    rewrite (proj2 (path_eqb_eq file_path file_path) eq_refl). reflexivity. }
  assert (Hdir' : is_dir fs' (index_path self) = true).
  { unfold is_dir, fs' in *. rewrite lookup_app.
    destruct (FS.lookup fs (index_path self)) as [[| ? ?] |]; try discriminate. reflexivity. }
  assert (Hrglob : rglob fs' (index_path self) = rglob fs (index_path self) ++ [file_path]).
  { unfold rglob. rewrite Hdir, Hdir'. unfold fs'.
    rewrite map_app, filter_app. cbn [map fst filter]. rewrite Hbelow. reflexivity. }
  assert (Hbytes : bytes_below fs' (index_path self)
                   = (bytes_below fs (index_path self) + st_size st)%Z).
  { unfold bytes_below. rewrite Hrglob, filter_app, map_app, sum_Z_app.
    rewrite (sizes_agree fs fs' (rglob fs (index_path self))).
    - assert (Hfile : is_file fs' file_path = true)
        by (unfold is_file; rewrite Hnew; reflexivity).
      assert (Hsize : size_of fs' file_path = st_size st)
        by (unfold size_of; rewrite Hnew; reflexivity).
      cbn [filter]. rewrite Hfile. cbn [map]. rewrite Hsize.
      unfold sum_Z at 2. cbn [fold_right]. lia.
    - intros q Hq. apply Hkeep. unfold rglob in Hq. rewrite Hdir in Hq.
      apply filter_In in Hq. tauto. }
  split; [ exact Hbytes | ].
  unfold get_index_stats.
  assert (Hex : path_exists fs' (index_path self) = true).
  { unfold path_exists. unfold is_dir in Hdir'.
    destruct (FS.lookup fs' (index_path self)); [ reflexivity | discriminate ]. }
  rewrite Hex. cbn [negb]. rewrite sum_sizes_total. cbn [try_except bind].
  fold (bytes_below fs' (index_path self)). rewrite Z.add_0_l.
  change (sum_Z (map (size_of fs') (filter (is_file fs') (rglob fs' (index_path self)))))
    with (bytes_below fs' (index_path self)).
  rewrite Hbytes. reflexivity.
Qed.

End StatsFacts.

Section ListingFacts.

Context (rt : Runtime) (lib : Library).

(** X17: [list_files] never lists a file: it opens the index and returns one
    string, the placeholder when the index opens and the library's message
    after the words "Error listing files: " when it does not; it never asks
    the library to search. *)
Theorem list_files_placeholder (self : LEANNBridge) :
  let index := str (index_path self) in
  (forall meta_data, LeannSearcher lib index = inr meta_data ->
     list_files rt lib self = ([NewSearcher index], Ok [placeholder_listing]))
  /\ (forall msg, LeannSearcher lib index = inl msg ->
        list_files rt lib self
        = ([NewSearcher index], Ok [("Error listing files: " ++ msg)%string]))
  /\ (exists answer, list_files rt lib self = ([NewSearcher index], Ok [answer]))
  /\ library_searches (fst (list_files rt lib self)) = 0%nat
  /\ fallback_calls (fst (list_files rt lib self)) = 0%nat.
Proof.
  intros index. unfold list_files. fold index.
  destruct (LeannSearcher lib index) as [msg | meta_data]; cbn;
    repeat split; try congruence; eauto.
Qed.

End ListingFacts.

(** ** The process *)

Section Descriptors.

Import Proc.

#[local] Arguments drop : simpl never.

Lemma target_listed (t : list (nat * nat)) (n s : nat) :
  target t n = Some s -> In n (map fst t).
Proof.
  induction t as [| [m s'] t IH]; cbn; [ discriminate | ].
  destruct (Nat.eqb_spec n m) as [-> | _]; [ auto | ].
  intros H. right. exact (IH H).
Qed.

(** [os.dup] always finds a descriptor, and that one is not open. *)
Lemma lowest_free_closed (t : list (nat * nat)) :
  exists m, lowest_free t = Some m /\ target t m = None.
Proof.
  unfold lowest_free.
  destruct (find (is_free t) (seq 0 (S (length t)))) as [m |] eqn:Hfind.
  - exists m. split; [ reflexivity | ].
    apply find_some in Hfind as [_ Hfree]. unfold is_free in Hfree.
    destruct (target t m); [ discriminate | reflexivity ].
  - exfalso.
    assert (Hincl : incl (seq 0 (S (length t))) (map fst t)).
    { intros n Hn. pose proof (find_none _ _ Hfind n Hn) as Hbusy.
      unfold is_free in Hbusy. destruct (target t n) as [s |] eqn:E; [ | discriminate ].
      exact (target_listed t n s E). }
    pose proof (NoDup_incl_length (seq_NoDup _ _) Hincl) as Hlen.
    rewrite length_seq, length_map in Hlen. lia.
Qed.

Lemma target_cons (t : list (nat * nat)) (m s n : nat) :
  target ((m, s) :: t) n = if Nat.eqb n m then Some s else target t n.
Proof. reflexivity. Qed.

Lemma target_drop (t : list (nat * nat)) (d n : nat) :
  target (drop d t) n = if Nat.eqb n d then None else target t n.
Proof.
  unfold drop. induction t as [| [m s] t IH]; cbn [filter target fst].
  - destruct (Nat.eqb n d); reflexivity.
  - destruct (Nat.eqb_spec m d) as [-> | Hmd]; cbn [negb target].
    + rewrite IH. destruct (Nat.eqb_spec n d); reflexivity.
    + rewrite IH. destruct (Nat.eqb_spec n m) as [-> | Hnm]; [ | reflexivity ].
      destruct (Nat.eqb_spec m d); [ contradiction | reflexivity ].
Qed.

(** The descriptors after the statement, in terms of those before it. *)
Lemma restored_table (t : list (nat * nat)) (m out err : nat) :
  target t 1 = Some out -> target t m = None ->
  forall n,
    target (drop m ((1, out) :: drop 1 ((1, err) :: drop 1 ((m, out) :: t)))) n
    = target t n.
Proof.
  intros Hout Hfree n.
  rewrite target_drop. destruct (Nat.eqb_spec n m) as [-> | Hnm]; [ auto | ].
  cbn [target]. destruct (Nat.eqb_spec n 1) as [-> | Hn1]; [ auto | ].
  rewrite target_drop. destruct (Nat.eqb_spec n 1); [ contradiction | ].
  cbn [target]. destruct (Nat.eqb_spec n 1); [ contradiction | ].
  rewrite target_drop. destruct (Nat.eqb_spec n 1); [ contradiction | ].
  cbn [target]. destruct (Nat.eqb_spec n m); [ contradiction | reflexivity ].
Qed.

Lemma flush_stdout_runs (p : process) (s : nat) :
  target (table p) 1 = Some s ->
  flush_stdout p
  = ({| table := table p; stdout_pending := EmptyString;
        stderr_pending := stderr_pending p;
        written := written p ++ pending_write s (stdout_pending p) |}, Ok tt).
Proof.
  intros Hs. unfold flush_stdout, pending_write. destruct p as [t o e w]; cbn in *.
  destruct o; [ rewrite app_nil_r; reflexivity | rewrite Hs; reflexivity ].
Qed.

Lemma flush_stderr_runs (p : process) (s : nat) :
  target (table p) 2 = Some s ->
  flush_stderr p
  = ({| table := table p; stdout_pending := stdout_pending p;
        stderr_pending := EmptyString;
        written := written p ++ pending_write s (stderr_pending p) |}, Ok tt).
Proof.
  intros Hs. unfold flush_stderr, pending_write. destruct p as [t o e w]; cbn in *.
  destruct e; [ rewrite app_nil_r; reflexivity | rewrite Hs; reflexivity ].
Qed.

(** One run of the [with] statement, step by step: the body runs on a table
    in which descriptor 1 refers to the stream of descriptor 2; afterwards
    the held text is flushed to that stream and the table is put back. *)
Lemma suppress_stdout_runs {A} (body : io A) (p : process) (out err : nat) :
  target (table p) 1 = Some out ->
  target (table p) 2 = Some err ->
  (forall q, table (fst (body q)) = table q) ->
  exists m,
    lowest_free (table p) = Some m
    /\ target (table p) m = None
    /\ let inside := (1, err) :: drop 1 ((m, out) :: table p) in
       let after := body (with_table p inside) in
       suppress_stdout body p
       = ({| table := drop m ((1, out) :: drop 1 inside);
             stdout_pending := EmptyString;
             stderr_pending := EmptyString;
             written := (written (fst after) ++ pending_write err (stdout_pending (fst after)))
                        ++ pending_write err (stderr_pending (fst after)) |},
          snd after).
Proof.
  intros Hout Herr Hkeep.
  destruct (lowest_free_closed (table p)) as (m & Hm & Hfree).
  exists m. split; [ exact Hm | ]. split; [ exact Hfree | ]. cbv zeta.
  assert (Hm1 : Nat.eqb m 1 = false).
  { apply Nat.eqb_neq. intros ->. congruence. }
  assert (Hm2 : Nat.eqb 2 m = false).
  { apply Nat.eqb_neq. intros <-. congruence. }
  unfold suppress_stdout, os_dup. rewrite Hout, Hm.
  unfold os_dup2 at 1. cbn [table with_table]. rewrite target_cons, Hm2, Herr.
  set (inside := (1, err) :: drop 1 ((m, out) :: table p)).
  change (with_table (with_table p ((m, out) :: table p)) inside) with (with_table p inside).
  pose proof (Hkeep (with_table p inside)) as Htable.
  destruct (body (with_table p inside)) as [pb outcome]. cbn [fst snd] in *.
  cbn [table with_table] in Htable.
  assert (H1 : target (table pb) 1 = Some err) by (rewrite Htable; reflexivity).
  assert (H2 : target (table pb) 2 = Some err).
  { rewrite Htable. subst inside. rewrite target_cons. change (Nat.eqb 2 1) with false.
    cbv iota. rewrite target_drop. change (Nat.eqb 2 1) with false. cbv iota.
    rewrite target_cons, Hm2. exact Herr. }
  assert (Hmm : target (table pb) m = Some out).
  { rewrite Htable. subst inside. rewrite target_cons, Hm1, target_drop, Hm1.
    rewrite target_cons, Nat.eqb_refl. reflexivity. }
  unfold restore_stdout, Proc.bind.
  rewrite (flush_stdout_runs pb err H1).
  rewrite (flush_stderr_runs _ err) by exact H2.
  unfold os_dup2, os_close. cbn [table with_table stdout_pending stderr_pending written].
  rewrite Hmm. cbn [table with_table stdout_pending stderr_pending written].
  rewrite target_cons, Hm1, target_drop, Hm1, Hmm, Htable. reflexivity.
Qed.

(** X18: After [with suppress_stdout(): body], for a body that leaves the
    descriptors alone, every descriptor refers to what it referred to
    before: descriptor 1 is the original standard output again and the
    duplicate is closed.  This holds when the body returns and when it
    raises, and the outcome of the body is the outcome of the statement. *)
Theorem suppress_stdout_restores {A} (body : io A) (p : process) (out err : nat) :
  target (table p) 1 = Some out ->
  target (table p) 2 = Some err ->
  (forall q, table (fst (body q)) = table q) ->
  (forall n, target (table (fst (suppress_stdout body p))) n = target (table p) n)
  /\ exists q,
       snd (suppress_stdout body p) = snd (body q)
       /\ target (table q) 1 = Some err
       /\ target (table q) 2 = Some err
       /\ stdout_pending q = stdout_pending p
       /\ written q = written p.
Proof.
  intros Hout Herr Hkeep.
  destruct (suppress_stdout_runs body p out err Hout Herr Hkeep) as (m & Hm & Hfree & Hrun).
  cbv zeta in Hrun. rewrite Hrun. cbn [fst snd table]. split.
  - apply restored_table; assumption.
  - eexists. split; [ reflexivity | ]. cbn [table with_table].
    split; [ reflexivity | ]. split; [ | split; reflexivity ].
    rewrite target_cons. change (Nat.eqb 2 1) with false. cbv iota.
    rewrite target_drop. change (Nat.eqb 2 1) with false. cbv iota.
    rewrite target_cons.
    destruct (Nat.eqb_spec 2 m) as [<- | _]; [ congruence | exact Herr ].
Qed.

End Descriptors.

(** ** What reaches standard output *)

Lemma string_app_assoc (a b c : string) : ((a ++ b) ++ c = a ++ (b ++ c))%string.
Proof. induction a as [| x a IH]; cbn; [ reflexivity | rewrite IH; reflexivity ]. Qed.

Lemma string_app_nil_r (a : string) : (a ++ "" = a)%string.
Proof. induction a as [| x a IH]; cbn; [ reflexivity | rewrite IH; reflexivity ]. Qed.

Section StandardOutput.

Import Proc.

Lemma stream_text_app (w1 w2 : list (nat * string)) (s : nat) :
  stream_text (w1 ++ w2) s = (stream_text w1 s ++ stream_text w2 s)%string.
Proof.
  unfold stream_text. rewrite filter_app, map_app.
  induction (map snd (filter (fun e => Nat.eqb (fst e) s) w1)) as [| x l IH];
    cbn [app fold_right]; [ reflexivity | ].
  rewrite IH, string_app_assoc. reflexivity.
Qed.

Lemma stream_text_elsewhere (w : list (nat * string)) (s other : nat) :
  Forall (fun e => fst e = other) w -> other <> s -> stream_text w s = EmptyString.
Proof.
  intros Hall Hne. unfold stream_text.
  induction Hall as [| [s' text] w Hs _ IH]; [ reflexivity | ].
  cbn in Hs. subst s'. cbn [filter fst].
  destruct (Nat.eqb_spec other s); [ contradiction | exact IH ].
Qed.

Lemma pending_write_on (s : nat) (text : string) :
  Forall (fun e => fst e = s) (pending_write s text).
Proof. destruct text; cbn; repeat constructor. Qed.

Lemma stream_text_pending (s : nat) (text : string) :
  stream_text (pending_write s text) s = text.
Proof.
  destruct text as [| c text]; [ reflexivity | ].
  unfold stream_text, pending_write. cbn [filter fst]. rewrite Nat.eqb_refl.
  cbn [map snd fold_right]. apply string_app_nil_r.
Qed.

(** Noise never touches the descriptors; with both standard descriptors on
    one stream, whatever it writes lands on that stream. *)
Lemma run_effects_lands (noise : list effect) (err : nat) :
  forallb standard_noise noise = true ->
  forall q,
    target (table q) 1 = Some err ->
    target (table q) 2 = Some err ->
    table (run_effects noise q) = table q
    /\ exists W, written (run_effects noise q) = written q ++ W
                 /\ Forall (fun e => fst e = err) W.
Proof.
  unfold run_effects.
  induction noise as [| e noise IH]; intros Hstd q H1 H2; cbn [fold_left].
  - split; [ reflexivity | ]. exists []. rewrite app_nil_r. auto.
  - cbn [forallb] in Hstd. apply andb_prop in Hstd as [He Hrest].
    assert (Hstep : table (run_effect q e) = table q
                    /\ exists W, written (run_effect q e) = written q ++ W
                                 /\ Forall (fun e => fst e = err) W).
    { destruct e as [n text | text | text]; cbn [run_effect table written].
      - unfold write_fd. cbn in He. apply orb_prop in He.
        assert (Hn : target (table q) n = Some err).
        { destruct He as [He | He]; apply Nat.eqb_eq in He; subst n; assumption. }
        rewrite Hn. cbn [table written]. split; [ reflexivity | ].
        exists [(err, text)]. split; [ reflexivity | repeat constructor ].
      - split; [ reflexivity | ]. exists []. rewrite app_nil_r. auto.
      - split; [ reflexivity | ]. exists []. rewrite app_nil_r. auto. }
    destruct Hstep as (Ht & W1 & Hw1 & HW1).
    destruct (IH Hrest (run_effect q e)) as (Ht' & W2 & Hw2 & HW2);
      [ rewrite Ht; assumption | rewrite Ht; assumption | ].
    split; [ congruence | ].
    exists (W1 ++ W2). rewrite Hw2, Hw1, app_assoc. split; [ reflexivity | ].
    apply Forall_app. auto.
Qed.

Lemma run_effects_table (noise : list effect) :
  forall q, table (run_effects noise q) = table q.
Proof.
  unfold run_effects. induction noise as [| e noise IH]; intros q; cbn [fold_left];
    [ reflexivity | ].
  rewrite IH. destruct e as [n text | text | text]; cbn [run_effect table];
    [ | reflexivity | reflexivity ].
  unfold write_fd. destruct (target (table q) n); reflexivity.
Qed.

End StandardOutput.

Section Frames.

Import Proc.

Context (rt : Runtime) (lib : Library) (fs : filesystem) (megabytes : Z -> float).
Context (dumps : json -> string) (help : string) (noise : list effect).








(** X21: A [--filter] that is absent, empty, not JSON, or the JSON [null] makes
    the search command behave exactly as a search without a filter: it is
    dropped, not reported. *)
Theorem main_ignores_unusable_filter (query : string) (top_k : Z) (grep : bool)
    (filter : option string) (index : string) :
  filter = None
  \/ filter = Some EmptyString
  \/ (exists text msg, filter = Some text /\ json_loads rt text = inl msg)
  \/ (exists text, filter = Some text /\ json_loads rt text = inr JNull) ->
  parse_filter rt filter = None
  /\ forall p,
       main rt lib fs megabytes dumps help noise (CmdSearch query top_k grep filter index) p
       = main rt lib fs megabytes dumps help noise (CmdSearch query top_k grep None index) p.
Proof.
  intros Hfilter.
  assert (Hnone : parse_filter rt filter = None).
  { destruct Hfilter as [-> | [-> | [(text & msg & -> & Hbad) | (text & -> & Hnull)]]];
      cbn; try reflexivity.
    - rewrite Hbad. destruct (Str.nonempty text); reflexivity.
    - rewrite Hnull. destruct (Str.nonempty text); reflexivity. }
  split; [ exact Hnone | ].
  intros p. cbn [main]. rewrite Hnone. reflexivity.
Qed.

End Frames.

Section Diversion.

Import Proc.

(** X19: While the block runs, standard output receives nothing: what the
    library writes on either standard descriptor, what it prints, and also
    the text [sys.stdout] was holding when the block was entered, all go
    to the stream of standard error.  On exit both buffers are empty. *)
Theorem suppress_stdout_diverts {A} (noise : list effect) (outcome : result A)
    (p : process) (out err : nat) :
  target (table p) 1 = Some out ->
  target (table p) 2 = Some err ->
  out <> err ->
  forallb standard_noise noise = true ->
  let after := fst (suppress_stdout (in_block noise outcome) p) in
  received after out = received p out
  /\ stdout_pending after = EmptyString
  /\ stderr_pending after = EmptyString
  /\ snd (suppress_stdout (in_block noise outcome) p) = outcome
  /\ (noise = [] ->
      received after err
      = (received p err ++ stdout_pending p ++ stderr_pending p)%string).
Proof.
  intros Hout Herr Hne Hstd after.
  destruct (suppress_stdout_runs (in_block noise outcome) p out err Hout Herr
              (run_effects_table noise)) as (m & Hm & Hfree & Hrun).
  cbv zeta in Hrun. subst after. rewrite Hrun. cbn [fst snd stdout_pending stderr_pending].
  set (inside := with_table p ((1, err) :: drop 1 ((m, out) :: table p))) in *.
  assert (H1 : target (table inside) 1 = Some err) by reflexivity.
  assert (H2 : target (table inside) 2 = Some err).
  { subst inside. cbn [table with_table]. rewrite target_cons.
    change (Nat.eqb 2 1) with false. cbv iota. rewrite target_drop.
    change (Nat.eqb 2 1) with false. cbv iota. rewrite target_cons.
    destruct (Nat.eqb_spec 2 m) as [<- | _]; [ congruence | exact Herr ]. }
  assert (Hnoerr : err <> out) by congruence.
  split; [ | split; [ reflexivity | split; [ reflexivity | split; [ reflexivity | ] ] ] ].
  - destruct (run_effects_lands noise err Hstd inside H1 H2) as (_ & W & Hw & HW).
    unfold received. cbn [written].
    fold (stream_text ((written (fst (in_block noise outcome inside))
                        ++ pending_write err (stdout_pending (fst (in_block noise outcome inside))))
                       ++ pending_write err (stderr_pending (fst (in_block noise outcome inside))))
            out).
    fold (stream_text (written p) out).
    unfold in_block. cbn [fst]. rewrite Hw, !stream_text_app.
    rewrite (stream_text_elsewhere W out err HW Hnoerr).
    rewrite !(stream_text_elsewhere _ out err (pending_write_on err _) Hnoerr).
    subst inside. cbn [written with_table]. rewrite !string_app_nil_r. reflexivity.
  - intros ->. unfold received. cbn [written].
    fold (stream_text ((written (fst (in_block [] outcome inside))
                        ++ pending_write err (stdout_pending (fst (in_block [] outcome inside))))
                       ++ pending_write err (stderr_pending (fst (in_block [] outcome inside))))
            err).
    fold (stream_text (written p) err).
    unfold in_block, run_effects. cbn [fst fold_left].
    rewrite !stream_text_app, !stream_text_pending.
    subst inside. cbn [written with_table stdout_pending stderr_pending].
    rewrite string_app_assoc. reflexivity.
Qed.

End Diversion.

(** *** The command line on the concrete worlds *)

Lemma suppress_stdout_restores_witness :
  Proc.target (Proc.table terminal) 1 = Some 1%nat
  /\ Proc.target (Proc.table terminal) 2 = Some 2%nat
  /\ (forall q, Proc.table (fst (failing_body q)) = Proc.table q)
  /\ (forall n, Proc.target (Proc.table (fst (Proc.suppress_stdout failing_body terminal))) n
                = Proc.target (Proc.table terminal) n)
  /\ snd (Proc.suppress_stdout failing_body terminal) = Raise (Raised "boom").
Proof.
  assert (Hkeep : forall q, Proc.table (fst (failing_body q)) = Proc.table q).
  { intros q. unfold failing_body, Proc.write_fd. cbn [fst].
    destruct (Proc.target (Proc.table q) 1); reflexivity. }
  split; [ reflexivity | ]. split; [ reflexivity | ]. split; [ exact Hkeep | ].
  split; [ | reflexivity ].
  exact (proj1 (suppress_stdout_restores failing_body terminal 1 2 eq_refl eq_refl Hkeep)).
Defined.

Lemma suppress_stdout_diverts_witness :
  Proc.target (Proc.table terminal) 1 = Some 1%nat
  /\ Proc.target (Proc.table terminal) 2 = Some 2%nat
  /\ 1%nat <> 2%nat
  /\ forallb standard_noise demo_noise = true
  /\ Proc.received (fst (Proc.suppress_stdout (in_block demo_noise (Ok tt)) terminal)) 1
     = Proc.received terminal 1
  /\ Proc.received (fst (Proc.suppress_stdout (in_block demo_noise (Ok tt)) terminal)) 2
     = "loading indexINFO searchingWARN slow".
Proof.
  assert (Hne : 1%nat <> 2%nat) by discriminate.
  split; [ reflexivity | ]. split; [ reflexivity | ]. split; [ exact Hne | ].
  split; [ reflexivity | ]. split; [ | reflexivity ].
  exact (proj1 (suppress_stdout_diverts demo_noise (Ok tt) terminal 1 2
                  eq_refl eq_refl Hne eq_refl)).
Defined.


(** The same run, evaluated: standard output holds the frame around [[]],
    standard error the noise. *)
Lemma main_search_demo :
  let after :=
    fst (Proc.flush_stdout
           (fst (main demo_runtime (missing_log_library []) demo_fs small_megabytes
                   demo_dumps "usage" demo_noise
                   (CmdSearch "zzz" 10 true None "store/idx") terminal))) in
  Proc.received after 1 = frame "[]"
  /\ Proc.received after 2 = "loading indexINFO searchingWARN slow".
Proof. split; reflexivity. Qed.

Lemma main_ignores_unusable_filter_witness :
  (Some "{oops" = None
   \/ Some "{oops" = Some EmptyString
   \/ (exists text msg, Some "{oops" = Some text /\ json_loads demo_runtime text = inl msg)
   \/ (exists text, Some "{oops" = Some text /\ json_loads demo_runtime text = inr JNull))
  /\ parse_filter demo_runtime (Some "{oops") = None
  /\ forall p,
       main demo_runtime answering_library demo_fs small_megabytes demo_dumps "usage"
         demo_noise (CmdSearch "hello" 10 false (Some "{oops") "store/idx") p
       = main demo_runtime answering_library demo_fs small_megabytes demo_dumps "usage"
           demo_noise (CmdSearch "hello" 10 false None "store/idx") p.
Proof.
  assert (Hbad : Some "{oops" = None
                 \/ Some "{oops" = Some EmptyString
                 \/ (exists text msg, Some "{oops" = Some text
                                      /\ json_loads demo_runtime text = inl msg)
                 \/ (exists text, Some "{oops" = Some text
                                  /\ json_loads demo_runtime text = inr JNull)).
  { right. right. left. exists "{oops". eexists. split; reflexivity. }
  split; [ exact Hbad | ].
  exact (main_ignores_unusable_filter demo_runtime answering_library demo_fs small_megabytes
           demo_dumps "usage" demo_noise "hello" 10 false (Some "{oops") "store/idx" Hbad).
Defined.

Lemma get_index_stats_counts_new_file_witness :
  is_dir project_fs (index_path (__init__ "/proj")) = true
  /\ FS.lookup project_fs ["/"; "proj"; "new.bin"] = None
  /\ below (index_path (__init__ "/proj")) ["/"; "proj"; "new.bin"] = true
  /\ bytes_below project_fs (index_path (__init__ "/proj")) = 31%Z
  /\ bytes_below (project_fs ++ [(["/"; "proj"; "new.bin"], RegularFile None (stat_of 7))])
       (index_path (__init__ "/proj"))
     = (bytes_below project_fs (index_path (__init__ "/proj")) + st_size (stat_of 7))%Z
  /\ get_index_stats demo_runtime
       (project_fs ++ [(["/"; "proj"; "new.bin"], RegularFile None (stat_of 7))])
       small_megabytes (__init__ "/proj")
     = Ok (Stats (str (index_path (__init__ "/proj")))
             (bytes_below project_fs (index_path (__init__ "/proj")) + st_size (stat_of 7))
             (small_megabytes
                (bytes_below project_fs (index_path (__init__ "/proj")) + st_size (stat_of 7)))
             true).
Proof.
  split; [ reflexivity | ]. split; [ reflexivity | ]. split; [ reflexivity | ].
  split; [ reflexivity | ].
  exact (get_index_stats_counts_new_file demo_runtime project_fs small_megabytes
           (__init__ "/proj") ["/"; "proj"; "new.bin"] None (stat_of 7)
           eq_refl eq_refl eq_refl).
Defined.

(** ** A grep query from end to end *)

Section GrepQuery.

Context (rt : Runtime) (lib : Library) (fs : filesystem).

(** X22: A grep query on an index whose library cannot find its passages
    file is answered from the log itself: [search] opens the index, lets
    the library fail, calls the fallback once, and returns, in the order of
    the log and with score 1.0, the first [top_k] passages whose text the
    pattern matches. *)
Theorem search_grep_answered_from_log (self : LEANNBridge) (query : string) (top_k : Z)
    (metadata_filters : option json) (msg : string) (pattern : regex rt) (log : string)
    (slots : list (option passage)) :
  library_outcome lib (str (index_path self)) query top_k metadata_filters true = inl msg ->
  Str.contains missing_passages_phrase msg = true ->
  reaches_log rt fs self query pattern log ->
  log_holds rt (readlines log) slots ->
  (1 <= top_k)%Z ->
  search rt lib fs self query top_k metadata_filters true
  = (library_calls lib (str (index_path self)) query top_k metadata_filters true
       ++ [ManualGrep query top_k],
     Ok (map hit_of
           (firstn (Z.to_nat top_k)
              (filter (fun p => re_search rt pattern (fst p)) (passages_of slots))))).
Proof.
  intros Hfail Hphrase Hreach Hlog Hk.
  pose proof (search_unfold rt lib fs self query top_k metadata_filters true) as E.
  cbv zeta in E. rewrite E, Hfail. cbn [andb]. rewrite Hphrase.
  rewrite (manual_grep_scans rt fs self query top_k pattern log Hreach).
  rewrite (scan_firstn rt), (hits_of_slots rt pattern _ slots Hlog). cbn [app length].
  replace (Z.to_nat (Z.max 1 (top_k - Z.of_nat 0))) with (Z.to_nat top_k) by lia.
  rewrite firstn_map. reflexivity.
Qed.

End GrepQuery.

Lemma search_grep_answered_from_log_witness :
  library_outcome (missing_log_library []) (str (index_path (__init__ "store/mix")))
    "alpha" 1 None true = inl "No .jsonl passages file found"
  /\ Str.contains missing_passages_phrase "No .jsonl passages file found" = true
  /\ reaches_log mixed_runtime mixed_fs (__init__ "store/mix") "alpha"
       ("alpha" : regex mixed_runtime) mixed_log
  /\ log_holds mixed_runtime (readlines mixed_log)
       [Some ("alpha one", JObj [("k", JInt 1)]); None; None; Some ("alpha two", JObj [])]
  /\ (1 <= 1)%Z
  /\ search mixed_runtime (missing_log_library []) mixed_fs (__init__ "store/mix")
       "alpha" 1 None true
     = ([NewSearcher "store/mix"; SearcherSearch "alpha" 1 None true (JBool false);
         ManualGrep "alpha" 1],
        Ok [Hit "alpha one" (JObj [("k", JInt 1)]) 1%float]).
Proof.
  assert (Hk : (1 <= 1)%Z) by lia.
  split; [ reflexivity | ]. split; [ reflexivity | ].
  split; [ exact (mixed_reaches_log "alpha" eq_refl) | ].
  split; [ exact mixed_log_holds | ]. split; [ exact Hk | ].
  exact (search_grep_answered_from_log mixed_runtime (missing_log_library []) mixed_fs
           (__init__ "store/mix") "alpha" 1 None "No .jsonl passages file found" "alpha"
           mixed_log _ eq_refl eq_refl (mixed_reaches_log "alpha" eq_refl)
           mixed_log_holds Hk).
Defined.
